(** * Mute / unmute plugin: a shallow embedding of both plugin versions

    The repository holds two versions of one chat-bot plugin:
    - [src/linglingbizui/plugin.py], built from message handlers
      (module [Linglingbizui] below), and
    - [src/plugin.py], built around one chatter component
      (module [Plugin] below).

    Both keep a dictionary from stream id to expiry timestamp in the host's
    plugin storage under the key ["muted_streams"].  The dictionary is a
    [gmap string Z]; host calls (storage, outbound messages, reply
    generation) are explicit state passing over a [World]. *)

From Stdlib Require Import ZArith NArith Lia Bool List Ascii String.
From stdpp Require Import base option gmap strings list.

Local Open Scope Z_scope.

(** ** Python strings and the [re] fragment used by the duration parser *)

Module Py.

(** A Python [str] is a sequence of Unicode code points. *)
Definition codepoint := N.
Definition pystr := list codepoint.

(** An ASCII literal as a [pystr]. *)
Definition of_ascii (s : string) : pystr :=
  List.map N_of_ascii (list_ascii_of_string s).

(** First code points of the Unicode runs of decimal digits (category Nd,
    Unicode 14.0): every run holds the ten digits 0..9 in order.  This is
    the class [\d] of a [str] pattern and what [int()] accepts. *)
Definition decimal_runs : list N :=
  [0x30; 0x660; 0x6f0; 0x7c0; 0x966; 0x9e6; 0xa66; 0xae6; 0xb66; 0xbe6;
   0xc66; 0xce6; 0xd66; 0xde6; 0xe50; 0xed0; 0xf20; 0x1040; 0x1090;
   0x17e0; 0x1810; 0x1946; 0x19d0; 0x1a80; 0x1a90; 0x1b50; 0x1bb0;
   0x1c40; 0x1c50; 0xa620; 0xa8d0; 0xa900; 0xa9d0; 0xa9f0; 0xaa50;
   0xabf0; 0xff10; 0x104a0; 0x10d30; 0x11066; 0x110f0; 0x11136; 0x111d0;
   0x112f0; 0x11450; 0x114d0; 0x11650; 0x116c0; 0x11730; 0x118e0;
   0x11950; 0x11c50; 0x11d50; 0x11da0; 0x16a60; 0x16ac0; 0x16b50;
   0x1d7ce; 0x1d7d8; 0x1d7e2; 0x1d7ec; 0x1d7f6; 0x1e140; 0x1e2f0;
   0x1e950; 0x1fbf0]%N.

(** [unicodedata.decimal]: the value of a decimal digit, if it is one. *)
Definition decimal (c : codepoint) : option N :=
  match List.find (fun z => (z <=? c)%N && (c <? z + 10)%N) decimal_runs with
  | Some z => Some (c - z)%N
  | None => None
  end.

Definition isdecimal (c : codepoint) : bool :=
  match decimal c with Some _ => true | None => false end.

(** [str.isspace] on one code point, which is also the class [\s]. *)
Definition isspace (c : codepoint) : bool :=
  ((0x9 <=? c) && (c <=? 0xd) || (0x1c <=? c) && (c <=? 0x20)
   || (c =? 0x85) || (c =? 0xa0) || (c =? 0x1680)
   || (0x2000 <=? c) && (c <=? 0x200a)
   || (c =? 0x2028) || (c =? 0x2029) || (c =? 0x202f) || (c =? 0x205f)
   || (c =? 0x3000))%N.

(** [str.lower], code point by code point.  It is exact on ASCII and on the
    two other code points whose lower-case image holds an ASCII letter
    (U+0130 and the Kelvin sign U+212A).  Any other code point is kept as
    it is: its Unicode image, like itself, is neither a decimal digit, nor
    white space, nor a code point of the unit literals, so the patterns
    below cannot tell the two apart. *)
Definition lower_cp (c : codepoint) : pystr :=
  if ((0x41 <=? c) && (c <=? 0x5a))%N then [(c + 0x20)%N]
  else if (c =? 0x130)%N then [0x69; 0x307]%N
  else if (c =? 0x212a)%N then [0x6b]%N
  else [c].

Definition lower (s : pystr) : pystr := List.concat (List.map lower_cp s).

(** [str.strip()] with no argument. *)
Fixpoint lstrip (s : pystr) : pystr :=
  match s with
  | c :: s' => if isspace c then lstrip s' else s
  | [] => []
  end.

Definition rstrip (s : pystr) : pystr := List.rev (lstrip (List.rev s)).

Definition strip (s : pystr) : pystr := rstrip (lstrip s).

(** [s.startswith(p)] *)
Fixpoint startswith (p s : pystr) : bool :=
  match p, s with
  | [], _ => true
  | a :: p', b :: s' => (a =? b)%N && startswith p' s'
  | _ :: _, [] => false
  end.

(** [int(digits)] for a run of decimal digits; Python integers are
    unbounded. *)
Definition int (digits : pystr) : Z :=
  List.fold_left
    (fun acc c => 10 * acc + Z.of_N (default 0%N (decimal c))) digits 0.

(** [p in s]: the string [p] occurs somewhere in [s]. *)
Fixpoint contains (p s : pystr) : bool :=
  startswith p s
  || match s with
     | [] => false
     | _ :: s' => contains p s'
     end.

(** A greedy repetition of a character class, at least [least] times, as
    the backtracking matcher runs it: the longest run is tried first and
    given back one code point at a time while the rest of the pattern,
    the continuation [k], fails. *)
Fixpoint greedy {R} (cls : codepoint -> bool) (least : nat)
    (taken s : pystr) (k : pystr -> pystr -> option R) : option R :=
  let stop := match least with O => k taken s | S _ => None end in
  match s with
  | c :: s' =>
      if cls c then
        match greedy cls (Nat.pred least) (taken ++ [c]) s' k with
        | Some r => Some r
        | None => stop
        end
      else stop
  | [] => stop
  end.

(** [re.match] of [(\d+)\s*(?:u1|u2|...)] at the head of [s]; the result
    is group 1.  The alternatives are tried in the order written. *)
Definition match_here (units : list pystr) (s : pystr) : option pystr :=
  greedy isdecimal 1 [] s (fun group1 rest =>
    greedy isspace 0 [] rest (fun _ rest' =>
      if List.existsb (fun u => startswith u rest') units
      then Some group1 else None)).

(** [re.search]: the leftmost position where the pattern matches. *)
Fixpoint search (units : list pystr) (s : pystr) : option pystr :=
  match match_here units s with
  | Some g => Some g
  | None =>
      match s with
      | [] => None
      | _ :: s' => search units s'
      end
  end.

(** [s.split()] with no argument: the maximal runs of code points that are
    not white space, in order.  [word] is the run being read. *)
Fixpoint split_from (word s : pystr) : list pystr :=
  match s with
  | [] => match word with [] => [] | _ :: _ => [word] end
  | c :: s' =>
      if isspace c then
        match word with
        | [] => split_from [] s'
        | _ :: _ => word :: split_from [] s'
        end
      else split_from (word ++ [c]) s'
  end.

Definition split (s : pystr) : list pystr := split_from [] s.

(** [" ".join(words)] *)
Fixpoint join_space (words : list pystr) : pystr :=
  match words with
  | [] => []
  | [word] => word
  | word :: rest => word ++ 0x20%N :: join_space rest
  end.

(** [words.index(x)]: the first position of [x]; [None] is the
    [ValueError]. *)
Fixpoint index (x : pystr) (words : list pystr) : option nat :=
  match words with
  | [] => None
  | word :: rest =>
      if bool_decide (word = x) then Some O
      else match index x rest with
           | Some i => Some (S i)
           | None => None
           end
  end.

End Py.

(** ** Host services shared by both plugin versions *)

Module Host.

Import Py.

(** *** Clock and [datetime]

    Time is a count of microseconds, the resolution of [datetime], on the
    axis of naive local date-times starting at 0001-01-01T00:00:00.
    [datetime.now()] and [time.time()] read the same clock, and
    [datetime.timestamp()] is the identity on this axis: the local offset
    from the epoch is taken as constant, and the rounding of a timestamp
    to a float is left out. *)

Inductive exn := OverflowError.

Inductive outcome (A : Type) :=
| Returned (a : A)
| Raised (e : exn).
Arguments Returned {A} a.
Arguments Raised {A} e.

Definition US_PER_MINUTE : Z := 60000000.
Definition US_PER_DAY : Z := 86400000000.
Definition MAX_DELTA_DAYS : Z := 999999999.

(** One past [datetime.max], 9999-12-31T23:59:59.999999: the last day has
    ordinal 3652059. *)
Definition DATETIME_END : Z := 3652059 * US_PER_DAY.

(** [timedelta(minutes=m)]: [None] stands for the [OverflowError] raised
    when the normalised number of days is out of range. *)
Definition timedelta_minutes (m : Z) : option Z :=
  let us := m * US_PER_MINUTE in
  if Z.abs (us / US_PER_DAY) <=? MAX_DELTA_DAYS then Some us else None.

(** [t + delta] on date-times: [None] stands for the [OverflowError]
    raised when the sum leaves the years 1..9999. *)
Definition datetime_add (t delta : Z) : option Z :=
  let r := t + delta in
  if (0 <=? r) && (r <? DATETIME_END) then Some r else None.

(** [datetime.now() + timedelta(minutes=m)] with the clock reading [now]. *)
Definition now_plus_minutes (now m : Z) : option Z :=
  match timedelta_minutes m with
  | Some delta => datetime_add now delta
  | None => None
  end.

(** *** Configuration, after [get_config(key, default)] has resolved the
    defaults.  Message templates are not represented: a sent text is
    recorded by the template it was built from. *)

Record Config := {
  plugin_enabled : bool;                (* "plugin.enabled" *)
  features_mute_enabled : bool;         (* "features.mute_enabled" *)
  features_at_unmute_enabled : bool;    (* "features.at_unmute_enabled" *)
  defaults_default_mute_minutes : Z;    (* "defaults.default_mute_minutes" *)
  aliases_mute : list pystr;            (* "aliases.mute" *)
  aliases_unmute : list pystr           (* "aliases.unmute" *)
}.

(** Texts handed to [send_api.text_to_stream] / [self.send_text]. *)
Inductive Text :=
| TxtPluginDisabled                     (* "❌ 插件已被禁用。" *)
| TxtMuteDisabled                       (* "❌ 静音功能已被禁用。" *)
| TxtParseError                         (* "❌ 无法解析指定的时长，..." *)
| TxtMuteStart (unmute_time : Z)        (* messages.mute_start, formatted *)
| TxtUnmuteStart                        (* messages.unmute_start *)
| TxtNotMuted                           (* "我当前并未被禁言哦。" *)
| TxtAtUnmute.                          (* messages.at_unmute *)

(** The message a command returns next to its success flag. *)
Inductive ResultMessage :=
| MsgNoChatStream
| MsgPluginDisabled
| MsgMuteDisabled
| MsgParseFailure
| MsgMuted (stream_id : string) (duration_minutes unmute_time : Z)
| MsgWasNotMuted (stream_id : string)
| MsgUnmuted (stream_id : string).

(** *** Plugin storage and the rest of the world *)

Record Storage := {
  muted_streams : option (gmap string Z);   (* key "muted_streams" *)
  chatter_config : option Config            (* key "chatter_config" *)
}.

Record World := {
  storage : Storage;
  outbox : list (string * Text);    (* texts sent, oldest first *)
  thinking : list string            (* streams where a reply was generated *)
}.

(** [plugin_storage.get(STORAGE_KEY_MUTED_STREAMS, {})] *)
Definition get_muted (w : World) : gmap string Z :=
  default ∅ (muted_streams (storage w)).

(** [plugin_storage[STORAGE_KEY_MUTED_STREAMS] = m] (or [.set]) *)
Definition set_muted (m : gmap string Z) (w : World) : World :=
  {| storage := {| muted_streams := Some m;
                   chatter_config := chatter_config (storage w) |};
     outbox := outbox w;
     thinking := thinking w |}.

(** [plugin_storage.set("chatter_config", c)] *)
Definition set_chatter_config (c : Config) (w : World) : World :=
  {| storage := {| muted_streams := muted_streams (storage w);
                   chatter_config := Some c |};
     outbox := outbox w;
     thinking := thinking w |}.

(** [await send_api.text_to_stream(text, stream_id)] *)
Definition text_to_stream (text : Text) (stream_id : string) (w : World) : World :=
  {| storage := storage w;
     outbox := outbox w ++ [(stream_id, text)];
     thinking := thinking w |}.

(** What the host does when asked for a reply after an unmute. *)
Inductive ReplyHost :=
| NoChatStream                  (* the chat manager has no such stream *)
| NoReplyer                     (* get_replyer returned nothing *)
| Generated (success : bool)    (* generate_reply returned *)
| ReplyRaises.                  (* some call raised an Exception *)

(** The block [try: ... generate_reply ... except Exception: print(...)]:
    a generated reply is the only trace it leaves. *)
Definition trigger_thinking (host : ReplyHost) (stream_id : string) (w : World) : World :=
  match host with
  | Generated true =>
      {| storage := storage w;
         outbox := outbox w;
         thinking := thinking w ++ [stream_id] |}
  | _ => w
  end.

End Host.

(** ** The handler-based plugin, [src/linglingbizui/plugin.py] *)

Module Linglingbizui.

Import Py Host.

(** The [context] dictionary of a command: the stream id of
    [context.get('chat_stream')] and the raw text of [context.get('args')]. *)
Record CommandContext := {
  chat_stream : option string;
  args : option pystr
}.

(** The dictionary a command returns. *)
Record CommandResult := {
  success : bool;
  message : ResultMessage
}.

(** An incoming [Message]. [mentioned_user_ids] is [None] when the object
    has no such attribute. *)
Record Message := {
  content : pystr;
  stream_id : string;
  msg_chat_stream : option string;
  mentioned_user_ids : option (list string)
}.

Record HandlerReturn := { intercepted : bool }.

(** [SimpleCommandArgs.is_empty] *)
Definition is_empty (raw_str : pystr) : bool :=
  match strip raw_str with [] => true | _ => false end.

(** The argument object that [AliasHandler.handle] builds from the text
    after an alias. *)
Module SimpleCommandArgs.

Record Self := {
  raw_str : pystr;
  args_list : list pystr
}.

Definition __init__ (raw_str : pystr) : Self :=
  {| raw_str := raw_str;
     args_list := match raw_str with [] => [] | _ :: _ => split raw_str end |}.

Definition is_empty (self : Self) : bool :=
  match strip (raw_str self) with [] => true | _ :: _ => false end.

Definition get_raw (self : Self) : pystr := raw_str self.

Definition get_args (self : Self) : list pystr := args_list self.

Definition count (self : Self) : nat := length (args_list self).

Definition get_first (self : Self) : option pystr :=
  match args_list self with
  | first :: _ => Some first
  | [] => None
  end.

Definition get_remaining (self : Self) : pystr :=
  if (1 <? length (args_list self))%nat
  then join_space (drop 1 (args_list self))
  else [].

Definition has_flag (self : Self) (flag : pystr) : bool :=
  bool_decide (flag ∈ args_list self).

(** [default] and the result are [None] for Python's [None]. *)
Definition get_flag_value (self : Self) (flag : pystr)
    (default : option pystr) : option pystr :=
  match index flag (args_list self) with
  | Some idx =>
      if (idx + 1 <? length (args_list self))%nat
      then Some (nth (idx + 1) (args_list self) [])
      else default
  | None => default
  end.

End SimpleCommandArgs.

Module MuteMaiCommand.

(** The unit alternatives of the three patterns, in the order written:
    [分钟|min|m], [小时|h], [天]. *)
Definition minute_units : list pystr :=
  [[0x5206; 0x949f]%N; of_ascii "min"; of_ascii "m"].
Definition hour_units : list pystr :=
  [[0x5c0f; 0x65f6]%N; of_ascii "h"].
Definition day_units : list pystr :=
  [[0x5929]%N].

Definition _parse_duration (duration_str : pystr) : option Z :=
  let duration_str := lower duration_str in
  match search minute_units duration_str with
  | Some group1 => Some (int group1)
  | None =>
      match search hour_units duration_str with
      | Some group1 => Some (int group1 * 60)
      | None =>
          match search day_units duration_str with
          | Some group1 => Some (int group1 * 24 * 60)
          | None => None
          end
      end
  end.

(** The duration of a request: [None] is the parse failure. *)
Definition requested_minutes (cfg : Config) (ctx : CommandContext) : option Z :=
  match args ctx with
  | Some raw =>
      if negb (is_empty raw) then _parse_duration (strip raw)
      else Some (defaults_default_mute_minutes cfg)
  | None => Some (defaults_default_mute_minutes cfg)
  end.

Definition execute (cfg : Config) (now : Z) (ctx : CommandContext) (w : World)
  : World * outcome CommandResult :=
  match chat_stream ctx with
  | None => (w, Returned {| success := false; message := MsgNoChatStream |})
  | Some stream_id =>
      if negb (plugin_enabled cfg) then
        (text_to_stream TxtPluginDisabled stream_id w,
         Returned {| success := false; message := MsgPluginDisabled |})
      else if negb (features_mute_enabled cfg) then
        (text_to_stream TxtMuteDisabled stream_id w,
         Returned {| success := false; message := MsgMuteDisabled |})
      else
        match requested_minutes cfg ctx with
        | None =>
            (text_to_stream TxtParseError stream_id w,
             Returned {| success := false; message := MsgParseFailure |})
        | Some duration_minutes =>
            match now_plus_minutes now duration_minutes with
            | None => (w, Raised OverflowError)
            | Some unmute_time =>
                let current_muted_streams :=
                  <[stream_id := unmute_time]> (get_muted w) in
                let w := set_muted current_muted_streams w in
                let w := text_to_stream (TxtMuteStart unmute_time) stream_id w in
                (w, Returned {| success := true;
                                message := MsgMuted stream_id duration_minutes
                                                    unmute_time |})
            end
        end
  end.

End MuteMaiCommand.

Module UnmuteMaiCommand.

Definition execute (cfg : Config) (host : ReplyHost) (ctx : CommandContext)
    (w : World) : World * CommandResult :=
  match chat_stream ctx with
  | None => (w, {| success := false; message := MsgNoChatStream |})
  | Some stream_id =>
      if negb (plugin_enabled cfg) then
        (text_to_stream TxtPluginDisabled stream_id w,
         {| success := false; message := MsgPluginDisabled |})
      else if negb (features_mute_enabled cfg) then
        (text_to_stream TxtMuteDisabled stream_id w,
         {| success := false; message := MsgMuteDisabled |})
      else
        let current_muted_streams := get_muted w in
        match current_muted_streams !! stream_id with
        | Some _ =>
            let w := set_muted (delete stream_id current_muted_streams) w in
            let w := text_to_stream TxtUnmuteStart stream_id w in
            let w := trigger_thinking host stream_id w in
            (w, {| success := true; message := MsgUnmuted stream_id |})
        | None =>
            (w, {| success := true; message := MsgWasNotMuted stream_id |})
        end
  end.

End UnmuteMaiCommand.

Module AliasHandler.

(** [for alias in aliases: if message_content.startswith(alias): ...]:
    the first alias that is a prefix. *)
Definition first_alias (aliases : list pystr) (message_content : pystr)
  : option pystr :=
  List.find (fun alias => startswith alias message_content) aliases.

(** The context built for the command from the text after the alias. *)
Definition context_with_args (m : Message) (message_content alias : pystr)
  : CommandContext :=
  let param_str := strip (drop (length alias) message_content) in
  {| chat_stream := msg_chat_stream m;
     args := match param_str with [] => None | _ => Some param_str end |}.

Definition handle (cfg : Config) (now : Z) (host : ReplyHost)
    (msg : option Message) (w : World) : World * outcome HandlerReturn :=
  match msg with
  | None => (w, Returned {| intercepted := false |})
  | Some m =>
      if negb (plugin_enabled cfg) then (w, Returned {| intercepted := false |})
      else if negb (features_mute_enabled cfg) then
        (w, Returned {| intercepted := false |})
      else
        let message_content := strip (content m) in
        match first_alias (aliases_mute cfg) message_content with
        | Some alias =>
            match MuteMaiCommand.execute cfg now
                    (context_with_args m message_content alias) w with
            | (w, Returned _) => (w, Returned {| intercepted := false |})
            | (w, Raised e) => (w, Raised e)
            end
        | None =>
            match first_alias (aliases_unmute cfg) message_content with
            | Some alias =>
                let (w, _) :=
                  UnmuteMaiCommand.execute cfg host
                    (context_with_args m message_content alias) w in
                (w, Returned {| intercepted := false |})
            | None => (w, Returned {| intercepted := false |})
            end
        end
  end.

End AliasHandler.

Module AtUnmuteHandler.

(** [bot_id] is [None] when importing [global_config] fails. *)
Definition handle (cfg : Config) (now : Z) (bot_id : option string)
    (host : ReplyHost) (msg : option Message) (w : World)
  : World * HandlerReturn :=
  match msg with
  | None => (w, {| intercepted := false |})
  | Some m =>
      if negb (plugin_enabled cfg) then (w, {| intercepted := false |})
      else if negb (features_mute_enabled cfg) then (w, {| intercepted := false |})
      else if negb (features_at_unmute_enabled cfg) then
        (w, {| intercepted := false |})
      else
        let stream_id := stream_id m in
        let current_muted_streams := get_muted w in
        match current_muted_streams !! stream_id with
        | Some mute_until_timestamp =>
            if now <? mute_until_timestamp then
              match bot_id with
              | None => (w, {| intercepted := false |})
              | Some bot_id =>
                  match mentioned_user_ids m with
                  | Some ids =>
                      if bool_decide (bot_id ∈ ids) then
                        let w := set_muted (delete stream_id current_muted_streams) w in
                        let w := text_to_stream TxtAtUnmute stream_id w in
                        let w := trigger_thinking host stream_id w in
                        (w, {| intercepted := false |})
                      else (w, {| intercepted := false |})
                  | None => (w, {| intercepted := false |})
                  end
              end
            else (w, {| intercepted := false |})
        | None => (w, {| intercepted := false |})
        end
  end.

End AtUnmuteHandler.

Module MuteHandler.

Definition handle (cfg : Config) (now : Z) (msg : option Message) (w : World)
  : World * HandlerReturn :=
  match msg with
  | None => (w, {| intercepted := false |})
  | Some m =>
      if negb (plugin_enabled cfg) then (w, {| intercepted := false |})
      else if negb (features_mute_enabled cfg) then (w, {| intercepted := false |})
      else
        let stream_id := stream_id m in
        let current_muted_streams := get_muted w in
        match current_muted_streams !! stream_id with
        | Some mute_until_timestamp =>
            if now <? mute_until_timestamp then
              (w, {| intercepted := true |})
            else
              (set_muted (delete stream_id current_muted_streams) w,
               {| intercepted := false |})
        | None => (w, {| intercepted := false |})
        end
  end.

End MuteHandler.

Module MuteAndUnmutePlugin.

Definition on_plugin_loaded (w : World) : World :=
  let current_muted_streams := get_muted w in
  if decide (current_muted_streams = ∅) then w
  else set_muted ∅ w.

End MuteAndUnmutePlugin.

End Linglingbizui.

(** ** The chatter-based plugin, [src/plugin.py] *)

Module Plugin.

Import Py Host.

(** The tuple a command returns: success flag, message, and whether the
    host should go on to think. *)
Definition CommandResult : Type := bool * ResultMessage * bool.

Module MuteMaiCommand.

(** [chat_stream] is the stream id of [self.chat_stream]. *)
Definition execute (cfg : Config) (now : Z) (chat_stream : option string)
    (w : World) : World * outcome CommandResult :=
  match chat_stream with
  | None => (w, Returned (false, MsgNoChatStream, false))
  | Some stream_id =>
      if negb (plugin_enabled cfg) then
        (text_to_stream TxtPluginDisabled stream_id w,
         Returned (false, MsgPluginDisabled, false))
      else if negb (features_mute_enabled cfg) then
        (text_to_stream TxtMuteDisabled stream_id w,
         Returned (false, MsgMuteDisabled, false))
      else
        let duration_minutes := defaults_default_mute_minutes cfg in
        match now_plus_minutes now duration_minutes with
        | None => (w, Raised OverflowError)
        | Some unmute_time =>
            let current_muted_streams :=
              <[stream_id := unmute_time]> (get_muted w) in
            let w := set_muted current_muted_streams w in
            let w := text_to_stream (TxtMuteStart unmute_time) stream_id w in
            (w, Returned (true, MsgMuted stream_id duration_minutes unmute_time,
                          true))
        end
  end.

End MuteMaiCommand.

Module UnmuteMaiCommand.

Definition execute (cfg : Config) (host : ReplyHost)
    (chat_stream : option string) (w : World) : World * CommandResult :=
  match chat_stream with
  | None => (w, (false, MsgNoChatStream, false))
  | Some stream_id =>
      if negb (plugin_enabled cfg) then
        (text_to_stream TxtPluginDisabled stream_id w,
         (false, MsgPluginDisabled, false))
      else if negb (features_mute_enabled cfg) then
        (text_to_stream TxtMuteDisabled stream_id w,
         (false, MsgMuteDisabled, false))
      else
        let current_muted_streams := get_muted w in
        match current_muted_streams !! stream_id with
        | Some _ =>
            let w := set_muted (delete stream_id current_muted_streams) w in
            let w := text_to_stream TxtUnmuteStart stream_id w in
            let w := trigger_thinking host stream_id w in
            (w, (true, MsgUnmuted stream_id, true))
        | None =>
            (text_to_stream TxtNotMuted stream_id w,
             (false, MsgWasNotMuted stream_id, false))
        end
  end.

End UnmuteMaiCommand.

(** A message segment ([Seg]): a type tag and its data. *)
Inductive Seg :=
| MkSeg (type : string) (data : SegData)
with SegData :=
| DataStr (s : string)
| DataDict (qq : option string)     (* a dict, with its 'qq' entry if any *)
| DataList (l : list Seg)
| DataOther.

(** The last message of the stream context.  The text attributes are
    [None] when absent; [segments] holds, for each entry, its ['type'] and
    the ['text'] of its ['data']. *)
Record DatabaseMessages := {
  processed_plain_text : option pystr;
  plain_text : option pystr;
  text : option pystr;
  content : option pystr;
  raw_content : option pystr;
  segments : list (string * pystr);
  message_segment : option Seg
}.

(** What [MuteControlChatter.execute] returns. *)
Inductive ChatterReturn :=
| RetNoLastMessage        (* success, "No last message in context." *)
| RetNoTextContent        (* success, "No text content in last message." *)
| RetBotIdFailed          (* success False, "Failed to get bot ID." *)
| RetIntercepted          (* block_follow_up_processing True *)
| RetNoBlocking.          (* "no blocking action taken" *)

Module MuteControlChatter.

(** The attributes of one chatter instance. *)
Record Self := {
  stream_id : string;
  mute_aliases : list pystr;
  unmute_aliases : list pystr;
  plugin_enabled_val : bool;
  mute_enabled_val : bool;
  at_unmute_enabled_val : bool;
  default_mute_minutes_val : Z
}.

Definition __init__ (stream_id : string) : Self :=
  {| stream_id := stream_id;
     mute_aliases := [];
     unmute_aliases := [];
     plugin_enabled_val := true;
     mute_enabled_val := true;
     at_unmute_enabled_val := true;
     default_mute_minutes_val := 10 |}.

(** Python truth of an optional string. *)
Definition truthy (o : option pystr) : bool :=
  match o with Some (_ :: _) => true | _ => false end.

Definition or_else (o fallback : option pystr) : option pystr :=
  if truthy o then o else fallback.

(** The chain of [getattr] fall-backs that finds the text of the message. *)
Definition message_content_of (last_message : DatabaseMessages) : option pystr :=
  let message_content := processed_plain_text last_message in
  let message_content := or_else message_content (plain_text last_message) in
  let message_content := or_else message_content (text last_message) in
  let message_content := or_else message_content (content last_message) in
  let message_content := or_else message_content (raw_content last_message) in
  or_else message_content
    (Some (List.concat
       (List.map snd
          (List.filter (fun seg => bool_decide (fst seg = "text"%string))
             (segments last_message))))).

(** The attributes written by the [try: self.get_config ... except
    AttributeError] block.  [get_config] is [None] when the instance has no
    such method; the fall-back then reads the configuration cached in the
    storage.  No branch assigns [at_unmute_enabled_val]. *)
Definition load_config (self : Self) (get_config : option Config) (w : World)
  : Self :=
  let from (c : Config) :=
    {| stream_id := stream_id self;
       mute_aliases := aliases_mute c;
       unmute_aliases := aliases_unmute c;
       plugin_enabled_val := plugin_enabled c;
       mute_enabled_val := features_mute_enabled c;
       at_unmute_enabled_val := at_unmute_enabled_val self;
       default_mute_minutes_val := defaults_default_mute_minutes c |} in
  match get_config with
  | Some c => from c
  | None =>
      match chatter_config (storage w) with
      | Some cached_config => from cached_config
      | None =>
          {| stream_id := stream_id self;
             mute_aliases := [[0x7eeb; 0x7eeb; 0x95ed; 0x5634]%N];
             unmute_aliases := [[0x7eeb; 0x7eeb; 0x5f20; 0x5634]%N];
             plugin_enabled_val := true;
             mute_enabled_val := true;
             at_unmute_enabled_val := at_unmute_enabled_val self;
             default_mute_minutes_val := 10 |}
      end
  end.

Definition _execute_mute_logic_direct_from_chatter (self : Self) (now : Z)
    (context_stream_id : string) (w : World)
  : World * outcome (bool * ResultMessage) :=
  if negb (plugin_enabled_val self) then
    (text_to_stream TxtPluginDisabled context_stream_id w,
     Returned (false, MsgPluginDisabled))
  else if negb (mute_enabled_val self) then
    (text_to_stream TxtMuteDisabled context_stream_id w,
     Returned (false, MsgMuteDisabled))
  else
    let duration_minutes := default_mute_minutes_val self in
    match now_plus_minutes now duration_minutes with
    | None => (w, Raised OverflowError)
    | Some unmute_time =>
        let current_muted_streams :=
          <[context_stream_id := unmute_time]> (get_muted w) in
        let w := set_muted current_muted_streams w in
        let w := text_to_stream (TxtMuteStart unmute_time) context_stream_id w in
        (w, Returned (true, MsgMuted context_stream_id duration_minutes
                                     unmute_time))
    end.

Definition _execute_unmute_logic_direct_from_chatter (self : Self)
    (host : ReplyHost) (context_stream_id : string) (w : World)
  : World * (bool * ResultMessage) :=
  if negb (plugin_enabled_val self) then
    (text_to_stream TxtPluginDisabled context_stream_id w,
     (false, MsgPluginDisabled))
  else if negb (mute_enabled_val self) then
    (text_to_stream TxtMuteDisabled context_stream_id w,
     (false, MsgMuteDisabled))
  else
    let current_muted_streams := get_muted w in
    match current_muted_streams !! context_stream_id with
    | Some _ =>
        let w := set_muted (delete context_stream_id current_muted_streams) w in
        let w := text_to_stream TxtUnmuteStart context_stream_id w in
        let w := trigger_thinking host context_stream_id w in
        (w, (true, MsgUnmuted context_stream_id))
    | None =>
        (text_to_stream TxtNotMuted context_stream_id w,
         (false, MsgWasNotMuted context_stream_id))
    end.

(** [at_data.split(":", 1)]: the part after the first colon, if there is
    one. *)
Fixpoint after_colon (s : string) : option string :=
  match s with
  | EmptyString => None
  | String a s' => if Ascii.eqb a ":"%char then Some s' else after_colon s'
  end.

Fixpoint extract_at_ids (segment : Seg) : list string :=
  match segment with
  | MkSeg type data =>
      if bool_decide (type = "at"%string) then
        match data with
        | DataStr at_data =>
            match after_colon at_data with
            | Some qq => [qq]
            | None => [at_data]
            end
        | DataDict (Some qq) => [qq]
        | _ => []
        end
      else if bool_decide (type = "seglist"%string) then
        match data with
        | DataList l =>
            (fix each (l : list Seg) : list string :=
               match l with
               | [] => []
               | sub_seg :: l' => extract_at_ids sub_seg ++ each l'
               end) l
        | _ => []
        end
      else []
  end.

(** Step 2 of [execute], the @-mention check.  [Some r] is an early
    [return r]; [bot_id] is [None] when importing [global_config] fails. *)
Definition at_unmute_step (self : Self) (now : Z) (bot_id : option string)
    (host : ReplyHost) (last_message : DatabaseMessages) (w : World)
  : World * option ChatterReturn :=
  let stream_id := stream_id self in
  if negb (at_unmute_enabled_val self) then (w, None)
  else
    let mentioned_user_ids :=
      match message_segment last_message with
      | Some segment => extract_at_ids segment
      | None => []
      end in
    match mentioned_user_ids with
    | [] => (w, None)
    | _ :: _ =>
        match bot_id with
        | None => (w, Some RetBotIdFailed)
        | Some bot_id =>
            if bool_decide (bot_id ∈ mentioned_user_ids) then
              let current_muted_streams := get_muted w in
              match current_muted_streams !! stream_id with
              | Some mute_until_timestamp =>
                  if now <? mute_until_timestamp then
                    let w := set_muted (delete stream_id current_muted_streams) w in
                    let w := text_to_stream TxtAtUnmute stream_id w in
                    let w := trigger_thinking host stream_id w in
                    (w, None)
                  else (w, None)
              | None => (w, None)
              end
            else (w, None)
        end
    end.

(** Step 3 of [execute], the mute-status check that ends the call. *)
Definition mute_status_step (self : Self) (now : Z) (w : World)
  : World * ChatterReturn :=
  let stream_id := stream_id self in
  let current_muted_streams := get_muted w in
  match current_muted_streams !! stream_id with
  | Some mute_until_timestamp =>
      if now <? mute_until_timestamp then (w, RetIntercepted)
      else
        (set_muted (delete stream_id current_muted_streams) w, RetNoBlocking)
  | None => (w, RetNoBlocking)
  end.

(** Step 1 of [execute], first loop: the mute aliases. *)
Definition mute_alias_step (self : Self) (now : Z) (message_content : pystr)
    (w : World) : World * outcome unit :=
  match List.find (fun alias => startswith alias (strip message_content))
          (mute_aliases self) with
  | Some _ =>
      match _execute_mute_logic_direct_from_chatter self now (stream_id self) w with
      | (w, Returned _) => (w, Returned ())
      | (w, Raised e) => (w, Raised e)
      end
  | None => (w, Returned ())
  end.

(** Step 1 of [execute], second loop: the unmute aliases. *)
Definition unmute_alias_step (self : Self) (host : ReplyHost)
    (message_content : pystr) (w : World) : World :=
  match List.find (fun alias => startswith alias message_content)
          (unmute_aliases self) with
  | Some _ =>
      fst (_execute_unmute_logic_direct_from_chatter self host (stream_id self) w)
  | None => w
  end.

(** The clock is read by the mute logic, then by the @-mention check, then
    by the mute-status check. *)
Record ClockReads := {
  t_mute : Z;
  t_at : Z;
  t_check : Z
}.

Definition execute (self : Self) (get_config : option Config)
    (bot_id : option string) (host : ReplyHost) (clock : ClockReads)
    (last_message : option DatabaseMessages) (w : World)
  : Self * World * outcome ChatterReturn :=
  match last_message with
  | None => (self, w, Returned RetNoLastMessage)
  | Some last_message =>
      match message_content_of last_message with
      | Some (c :: cs) =>
          let message_content := c :: cs in
          let self := load_config self get_config w in
          match mute_alias_step self (t_mute clock) message_content w with
          | (w, Raised e) => (self, w, Raised e)
          | (w, Returned _) =>
              let w := unmute_alias_step self host message_content w in
              match at_unmute_step self (t_at clock) bot_id host last_message w with
              | (w, Some r) => (self, w, Returned r)
              | (w, None) =>
                  let (w, r) := mute_status_step self (t_check clock) w in
                  (self, w, Returned r)
              end
          end
      | _ => (self, w, Returned RetNoTextContent)
      end
  end.

End MuteControlChatter.

Module MuteAndUnmutePlugin.

(** [config] is [self.config], the configuration the plugin was loaded
    with. *)
Definition on_plugin_loaded (config : Config) (w : World) : World :=
  let current_muted_streams := get_muted w in
  let w :=
    if decide (current_muted_streams = ∅) then w
    else set_muted ∅ w in
  set_chatter_config config w.

End MuteAndUnmutePlugin.

End Plugin.

(** ** Nesting of message segments, used to state which mentions are found *)

Module Segments.

Import Plugin.

(** [inside seg root]: [seg] is [root] or sits, at any depth, in the list
    of a ["seglist"] segment of [root]. *)
Inductive inside (seg : Seg) : Seg → Prop :=
| inside_here : inside seg seg
| inside_list (sub : Seg) (l : list Seg) :
    sub ∈ l → inside seg sub → inside seg (MkSeg "seglist" (DataList l)).

End Segments.

(** ** Unit words, used to state when a duration string names no unit *)

Module Units.

Import Py.

(** Some unit literal of the three patterns occurs in [s]. *)
Definition names_a_unit (s : pystr) : bool :=
  List.existsb (fun unit => contains unit s)
    (Linglingbizui.MuteMaiCommand.minute_units
     ++ Linglingbizui.MuteMaiCommand.hour_units
     ++ Linglingbizui.MuteMaiCommand.day_units).

End Units.

(** ** Runs of mute requests, used to state how repeated mutes compose *)

Module Runs.

Import Host.



End Runs.

(** ** Sample data for the closed instances *)

Module Samples.

Import Py Host.

Definition cfg_on : Config :=
  {| plugin_enabled := true;
     features_mute_enabled := true;
     features_at_unmute_enabled := true;
     defaults_default_mute_minutes := 10;
     aliases_mute := [[0x7eeb; 0x7eeb; 0x95ed; 0x5634]%N];
     aliases_unmute := [[0x7eeb; 0x7eeb; 0x5f20; 0x5634]%N] |}.

(** The same configuration with [features.at_unmute_enabled = false]. *)
Definition cfg_at_off : Config :=
  {| plugin_enabled := true;
     features_mute_enabled := true;
     features_at_unmute_enabled := false;
     defaults_default_mute_minutes := 10;
     aliases_mute := aliases_mute cfg_on;
     aliases_unmute := aliases_unmute cfg_on |}.

(** The same configuration with [plugin.enabled = false]. *)
Definition cfg_off : Config :=
  {| plugin_enabled := false;
     features_mute_enabled := true;
     features_at_unmute_enabled := true;
     defaults_default_mute_minutes := 10;
     aliases_mute := aliases_mute cfg_on;
     aliases_unmute := aliases_unmute cfg_on |}.

(** A fresh world: nothing stored, nothing sent. *)
Definition w0 : World :=
  {| storage := {| muted_streams := None; chatter_config := None |};
     outbox := [];
     thinking := [] |}.

(** 2026-01-01T12:00:00 on the clock's axis: the date has ordinal 739617,
    so 739616 whole days lie before it. *)
Definition noon : Z := 739616 * US_PER_DAY + 12 * 60 * US_PER_MINUTE.

Definition minutes (m : Z) : Z := m * US_PER_MINUTE.

(** A world where "chat1" is muted until ten minutes past [noon]. *)
Definition w_muted : World :=
  set_muted {[ "chat1"%string := noon + minutes 10 ]} w0.

Definition ctx (raw : option pystr) : Linglingbizui.CommandContext :=
  {| Linglingbizui.chat_stream := Some "chat1"%string;
     Linglingbizui.args := raw |}.

(** A message in "chat1" with the given text and mentions. *)
Definition msg (text : pystr) (mentions : list string) : Linglingbizui.Message :=
  {| Linglingbizui.content := text;
     Linglingbizui.stream_id := "chat1"%string;
     Linglingbizui.msg_chat_stream := Some "chat1"%string;
     Linglingbizui.mentioned_user_ids := Some mentions |}.

(** A chatter message with plain text and an @-segment for user 10001. *)
Definition at_message : Plugin.DatabaseMessages :=
  {| Plugin.processed_plain_text := Some (of_ascii "hello");
     Plugin.plain_text := None;
     Plugin.text := None;
     Plugin.content := None;
     Plugin.raw_content := None;
     Plugin.segments := [];
     Plugin.message_segment :=
       Some (Plugin.MkSeg "seglist"
               (Plugin.DataList
                  [Plugin.MkSeg "at" (Plugin.DataStr "bot:10001");
                   Plugin.MkSeg "text" (Plugin.DataStr "hello")])) |}.

Definition clock_at (t : Z) : Plugin.MuteControlChatter.ClockReads :=
  {| Plugin.MuteControlChatter.t_mute := t;
     Plugin.MuteControlChatter.t_at := t;
     Plugin.MuteControlChatter.t_check := t |}.

(** A chatter message that has only its processed plain text. *)
Definition plain_message (text : pystr) : Plugin.DatabaseMessages :=
  {| Plugin.processed_plain_text := Some text;
     Plugin.plain_text := None;
     Plugin.text := None;
     Plugin.content := None;
     Plugin.raw_content := None;
     Plugin.segments := [];
     Plugin.message_segment := None |}.

(** A chatter message with no text at all, only a non-text segment. *)
Definition picture_message : Plugin.DatabaseMessages :=
  {| Plugin.processed_plain_text := Some [];
     Plugin.plain_text := None;
     Plugin.text := None;
     Plugin.content := None;
     Plugin.raw_content := None;
     Plugin.segments := [("image"%string, of_ascii "x")];
     Plugin.message_segment := None |}.

End Samples.

(** ** Facts about the world and the clock *)

Section WorldFacts.

Import Host.

Lemma get_muted_set_muted (m : gmap string Z) (w : World) :
  get_muted (set_muted m w) = m.
Proof. reflexivity. Qed.

Lemma get_muted_text_to_stream (t : Text) (s : string) (w : World) :
  get_muted (text_to_stream t s w) = get_muted w.
Proof. reflexivity. Qed.

Lemma storage_trigger_thinking (host : ReplyHost) (s : string) (w : World) :
  storage (trigger_thinking host s w) = storage w.
Proof. destruct host as [| |[]|]; reflexivity. Qed.

Lemma get_muted_trigger_thinking (host : ReplyHost) (s : string) (w : World) :
  get_muted (trigger_thinking host s w) = get_muted w.
Proof. unfold get_muted. by rewrite storage_trigger_thinking. Qed.

Lemma outbox_trigger_thinking (host : ReplyHost) (s : string) (w : World) :
  outbox (trigger_thinking host s w) = outbox w.
Proof. destruct host as [| |[]|]; reflexivity. Qed.

(** When the sum [now + timedelta(minutes=m)] exists it is the exact sum. *)
Lemma now_plus_minutes_Some (now m u : Z) :
  now_plus_minutes now m = Some u → u = now + m * US_PER_MINUTE.
Proof.
  unfold now_plus_minutes, timedelta_minutes, datetime_add.
  repeat case_match; naive_solver.
Qed.

(** It exists whenever the duration and the sum are in range. *)
Lemma now_plus_minutes_in_range (now m : Z) :
  Z.abs (m * US_PER_MINUTE / US_PER_DAY) <= MAX_DELTA_DAYS →
  0 <= now + m * US_PER_MINUTE < DATETIME_END →
  now_plus_minutes now m = Some (now + m * US_PER_MINUTE).
Proof.
  intros Hd [Hlo Hhi].
  unfold now_plus_minutes, timedelta_minutes, datetime_add.
  apply Z.leb_le in Hd. rewrite Hd.
  apply Z.leb_le in Hlo. apply Z.ltb_lt in Hhi.
  by rewrite Hlo, Hhi.
Qed.

End WorldFacts.

Create Rewrite HintDb world.
#[local] Hint Rewrite get_muted_set_muted get_muted_text_to_stream
  get_muted_trigger_thinking : world.

(** ** The handler-based plugin: what each operation does to the map *)

Section HandlerFacts.

Import Host Linglingbizui.

(** A successful mute determines its stream, its duration and the world
    it leaves behind. *)
Lemma handler_mute_success cfg now ctx w w' S D u :
  MuteMaiCommand.execute cfg now ctx w
    = (w', Returned {| success := true; message := MsgMuted S D u |}) →
  chat_stream ctx = Some S
  ∧ plugin_enabled cfg = true
  ∧ features_mute_enabled cfg = true
  ∧ MuteMaiCommand.requested_minutes cfg ctx = Some D
  ∧ u = now + D * US_PER_MINUTE
  ∧ w' = text_to_stream (TxtMuteStart u) S
           (set_muted (<[S := u]> (get_muted w)) w).
Proof.
  unfold MuteMaiCommand.execute. intros H.
  destruct (chat_stream ctx) as [sid|]; [|discriminate].
  destruct (plugin_enabled cfg); [|discriminate].
  destruct (features_mute_enabled cfg); [|discriminate].
  simpl in H.
  destruct (MuteMaiCommand.requested_minutes cfg ctx) as [d|]; [|discriminate].
  destruct (now_plus_minutes now d) as [t|] eqn:Ht; [|discriminate].
  apply now_plus_minutes_Some in Ht.
  injection H as <- <- <- <-. by subst t.
Qed.


(** The mute-status check, once both toggles are on, is a function of the
    record of the message's stream. *)
Lemma handler_check_spec cfg now m w :
  plugin_enabled cfg = true →
  features_mute_enabled cfg = true →
  MuteHandler.handle cfg now (Some m) w =
    match get_muted w !! stream_id m with
    | Some e =>
        if now <? e then (w, {| intercepted := true |})
        else (set_muted (delete (stream_id m) (get_muted w)) w,
              {| intercepted := false |})
    | None => (w, {| intercepted := false |})
    end.
Proof. intros Hp Hm. unfold MuteHandler.handle. by rewrite Hp, Hm. Qed.

Lemma handler_check_no_record cfg now msg w :
  (∀ m, msg = Some m → get_muted w !! stream_id m = None) →
  MuteHandler.handle cfg now msg w = (w, {| intercepted := false |}).
Proof.
  intros H. unfold MuteHandler.handle.
  destruct msg as [m|]; [|done].
  rewrite (H m eq_refl). by repeat case_match.
Qed.

(** Every operation of the handler-based plugin leaves the records of
    other streams as they were. *)
Lemma handler_mute_frame cfg now ctx w S' :
  chat_stream ctx ≠ Some S' →
  get_muted (fst (MuteMaiCommand.execute cfg now ctx w)) !! S'
    = get_muted w !! S'.
Proof.
  intros Hne. unfold MuteMaiCommand.execute.
  repeat case_match; simpl; autorewrite with world; try done.
  apply lookup_insert_ne. congruence.
Qed.

Lemma handler_unmute_frame cfg host ctx w S' :
  chat_stream ctx ≠ Some S' →
  get_muted (fst (UnmuteMaiCommand.execute cfg host ctx w)) !! S'
    = get_muted w !! S'.
Proof.
  intros Hne. unfold UnmuteMaiCommand.execute.
  repeat case_match; simpl; autorewrite with world; try done.
  apply lookup_delete_ne. congruence.
Qed.

Lemma handler_alias_frame cfg now host m w S' :
  msg_chat_stream m ≠ Some S' →
  get_muted (fst (AliasHandler.handle cfg now host (Some m) w)) !! S'
    = get_muted w !! S'.
Proof.
  intros Hne. unfold AliasHandler.handle.
  destruct (negb (plugin_enabled cfg)); [done|].
  destruct (negb (features_mute_enabled cfg)); [done|].
  destruct (AliasHandler.first_alias (aliases_mute cfg) _) as [a|].
  - pose proof (handler_mute_frame cfg now
      (AliasHandler.context_with_args m (Py.strip (content m)) a) w S' Hne) as Hf.
    destruct (MuteMaiCommand.execute _ _ _ _) as [w1 [r|e]]; exact Hf.
  - destruct (AliasHandler.first_alias (aliases_unmute cfg) _) as [a|]; [|done].
    pose proof (handler_unmute_frame cfg host
      (AliasHandler.context_with_args m (Py.strip (content m)) a) w S' Hne) as Hf.
    destruct (UnmuteMaiCommand.execute _ _ _ _) as [w1 r]; exact Hf.
Qed.

Lemma handler_at_unmute_frame cfg now bot_id host m w S' :
  stream_id m ≠ S' →
  get_muted (fst (AtUnmuteHandler.handle cfg now bot_id host (Some m) w)) !! S'
    = get_muted w !! S'.
Proof.
  intros Hne. unfold AtUnmuteHandler.handle.
  repeat case_match; simpl; autorewrite with world; try done.
  by apply lookup_delete_ne.
Qed.

Lemma handler_check_frame cfg now m w S' :
  stream_id m ≠ S' →
  get_muted (fst (MuteHandler.handle cfg now (Some m) w)) !! S'
    = get_muted w !! S'.
Proof.
  intros Hne. unfold MuteHandler.handle.
  repeat case_match; simpl; autorewrite with world; try done.
  by apply lookup_delete_ne.
Qed.

End HandlerFacts.

(** ** The chatter-based plugin: what each operation does to the map *)

Section ChatterFacts.

Import Host Plugin.

Lemma chatter_mute_success cfg now cs w w' S D u think :
  MuteMaiCommand.execute cfg now cs w
    = (w', Returned (true, MsgMuted S D u, think)) →
  cs = Some S
  ∧ plugin_enabled cfg = true
  ∧ features_mute_enabled cfg = true
  ∧ D = defaults_default_mute_minutes cfg
  ∧ u = now + D * US_PER_MINUTE
  ∧ w' = text_to_stream (TxtMuteStart u) S
           (set_muted (<[S := u]> (get_muted w)) w).
Proof.
  unfold MuteMaiCommand.execute. intros H.
  destruct cs as [sid|]; [|discriminate].
  destruct (plugin_enabled cfg); [|discriminate].
  destruct (features_mute_enabled cfg); [|discriminate].
  simpl in H.
  destruct (now_plus_minutes now _) as [t|] eqn:Ht; [|discriminate].
  apply now_plus_minutes_Some in Ht.
  injection H as <- <- <- <- <-. by subst t.
Qed.




(** Loading the configuration keeps the stream of the instance and its
    [at_unmute_enabled_val]. *)
Lemma load_config_stream_id self get_config w :
  MuteControlChatter.stream_id (MuteControlChatter.load_config self get_config w)
    = MuteControlChatter.stream_id self.
Proof. unfold MuteControlChatter.load_config. by repeat case_match. Qed.

Lemma load_config_at_unmute self get_config w :
  MuteControlChatter.at_unmute_enabled_val
    (MuteControlChatter.load_config self get_config w)
    = MuteControlChatter.at_unmute_enabled_val self.
Proof. unfold MuteControlChatter.load_config. by repeat case_match. Qed.

Lemma chatter_mute_frame cfg now cs w S' :
  cs ≠ Some S' →
  get_muted (fst (MuteMaiCommand.execute cfg now cs w)) !! S'
    = get_muted w !! S'.
Proof.
  intros Hne. unfold MuteMaiCommand.execute.
  repeat case_match; simpl; autorewrite with world; try done.
  apply lookup_insert_ne. congruence.
Qed.

Lemma chatter_unmute_frame cfg host cs w S' :
  cs ≠ Some S' →
  get_muted (fst (UnmuteMaiCommand.execute cfg host cs w)) !! S'
    = get_muted w !! S'.
Proof.
  intros Hne. unfold UnmuteMaiCommand.execute.
  repeat case_match; simpl; autorewrite with world; try done.
  apply lookup_delete_ne. congruence.
Qed.

Lemma chatter_alias_mute_frame self now S w S' :
  S ≠ S' →
  get_muted
    (fst (MuteControlChatter._execute_mute_logic_direct_from_chatter self now S w))
    !! S' = get_muted w !! S'.
Proof.
  intros Hne. unfold MuteControlChatter._execute_mute_logic_direct_from_chatter.
  repeat case_match; simpl; autorewrite with world; try done.
  by apply lookup_insert_ne.
Qed.

Lemma chatter_alias_unmute_frame self host S w S' :
  S ≠ S' →
  get_muted
    (fst (MuteControlChatter._execute_unmute_logic_direct_from_chatter self host S w))
    !! S' = get_muted w !! S'.
Proof.
  intros Hne. unfold MuteControlChatter._execute_unmute_logic_direct_from_chatter.
  repeat case_match; simpl; autorewrite with world; try done.
  by apply lookup_delete_ne.
Qed.

Lemma mute_alias_step_frame self now content w S' :
  MuteControlChatter.stream_id self ≠ S' →
  get_muted (fst (MuteControlChatter.mute_alias_step self now content w)) !! S'
    = get_muted w !! S'.
Proof.
  intros Hne. unfold MuteControlChatter.mute_alias_step.
  destruct (List.find _ _); [|done].
  pose proof (chatter_alias_mute_frame self now _ w S' Hne) as Hf.
  destruct (MuteControlChatter._execute_mute_logic_direct_from_chatter _ _ _ _)
    as [w1 [r|e]]; exact Hf.
Qed.

Lemma unmute_alias_step_frame self host content w S' :
  MuteControlChatter.stream_id self ≠ S' →
  get_muted (MuteControlChatter.unmute_alias_step self host content w) !! S'
    = get_muted w !! S'.
Proof.
  intros Hne. unfold MuteControlChatter.unmute_alias_step.
  destruct (List.find _ _); [|done].
  by apply chatter_alias_unmute_frame.
Qed.

Lemma at_unmute_step_frame self now bot_id host m w S' :
  MuteControlChatter.stream_id self ≠ S' →
  get_muted (fst (MuteControlChatter.at_unmute_step self now bot_id host m w)) !! S'
    = get_muted w !! S'.
Proof.
  intros Hne. unfold MuteControlChatter.at_unmute_step.
  repeat case_match; simpl; autorewrite with world; try done.
  by apply lookup_delete_ne.
Qed.

Lemma mute_status_step_frame self now w S' :
  MuteControlChatter.stream_id self ≠ S' →
  get_muted (fst (MuteControlChatter.mute_status_step self now w)) !! S'
    = get_muted w !! S'.
Proof.
  intros Hne. unfold MuteControlChatter.mute_status_step.
  repeat case_match; simpl; autorewrite with world; try done.
  by apply lookup_delete_ne.
Qed.

(** One whole call of the chatter, whatever it finds in the message. *)
Lemma chatter_execute_frame self get_config bot_id host clock last_message w S' :
  MuteControlChatter.stream_id self ≠ S' →
  get_muted
    (snd (fst (MuteControlChatter.execute self get_config bot_id host clock
                 last_message w))) !! S'
    = get_muted w !! S'.
Proof.
  intros Hne. unfold MuteControlChatter.execute.
  destruct last_message as [m|]; [|done].
  destruct (MuteControlChatter.message_content_of m) as [[|c cs]|]; [done| |done].
  set (self' := MuteControlChatter.load_config self get_config w).
  assert (Hne' : MuteControlChatter.stream_id self' ≠ S')
    by (subst self'; by rewrite load_config_stream_id).
  pose proof (mute_alias_step_frame self'
    (MuteControlChatter.t_mute clock) (c :: cs) w S' Hne') as H1.
  destruct (MuteControlChatter.mute_alias_step _ _ _ _) as [w1 [[]|e]];
    simpl in H1; [|exact H1].
  pose proof (unmute_alias_step_frame self' host (c :: cs) w1 S' Hne') as H2.
  set (w2 := MuteControlChatter.unmute_alias_step self' host (c :: cs) w1) in *.
  pose proof (at_unmute_step_frame self' (MuteControlChatter.t_at clock)
    bot_id host m w2 S' Hne') as H3.
  destruct (MuteControlChatter.at_unmute_step _ _ _ _ _ _) as [w3 [r|]];
    simpl in H3; [simpl; congruence|].
  pose proof (mute_status_step_frame self' (MuteControlChatter.t_check clock)
    w3 S' Hne') as H4.
  destruct (MuteControlChatter.mute_status_step _ _ _) as [w4 r].
  simpl in *. congruence.
Qed.

End ChatterFacts.

(** ** The mute window and lazy expiry *)

Section MuteWindow.

Import Host.

Lemma chatter_check_muted self now w e :
  get_muted w !! Plugin.MuteControlChatter.stream_id self = Some e →
  now < e →
  Plugin.MuteControlChatter.mute_status_step self now w
    = (w, Plugin.RetIntercepted).
Proof.
  intros He Hlt. unfold Plugin.MuteControlChatter.mute_status_step.
  rewrite He. apply Z.ltb_lt in Hlt. by rewrite Hlt.
Qed.

Lemma chatter_check_expired self now w e :
  get_muted w !! Plugin.MuteControlChatter.stream_id self = Some e →
  e <= now →
  Plugin.MuteControlChatter.mute_status_step self now w
    = (set_muted (delete (Plugin.MuteControlChatter.stream_id self) (get_muted w)) w,
       Plugin.RetNoBlocking).
Proof.
  intros He Hle. unfold Plugin.MuteControlChatter.mute_status_step.
  rewrite He. apply Z.ltb_ge in Hle. by rewrite Hle.
Qed.

Lemma handler_check_muted cfg now m w e :
  plugin_enabled cfg = true →
  features_mute_enabled cfg = true →
  get_muted w !! Linglingbizui.stream_id m = Some e →
  now < e →
  Linglingbizui.MuteHandler.handle cfg now (Some m) w
    = (w, {| Linglingbizui.intercepted := true |}).
Proof.
  intros Hp Hm He Hlt. rewrite handler_check_spec by done.
  rewrite He. apply Z.ltb_lt in Hlt. by rewrite Hlt.
Qed.

Lemma handler_check_expired cfg now m w e :
  plugin_enabled cfg = true →
  features_mute_enabled cfg = true →
  get_muted w !! Linglingbizui.stream_id m = Some e →
  e <= now →
  Linglingbizui.MuteHandler.handle cfg now (Some m) w
    = (set_muted (delete (Linglingbizui.stream_id m) (get_muted w)) w,
       {| Linglingbizui.intercepted := false |}).
Proof.
  intros Hp Hm He Hle. rewrite handler_check_spec by done.
  rewrite He. apply Z.ltb_ge in Hle. by rewrite Hle.
Qed.

(** A call of the chatter on a message that has text, starts with no
    alias and carries no segment goes straight to the mute-status step. *)
Lemma chatter_execute_plain_message self get_config bot_id host clock m w c cs :
  Plugin.MuteControlChatter.message_content_of m = Some (c :: cs) →
  Plugin.message_segment m = None →
  let self' := Plugin.MuteControlChatter.load_config self get_config w in
  List.find (fun alias => Py.startswith alias (Py.strip (c :: cs)))
    (Plugin.MuteControlChatter.mute_aliases self') = None →
  List.find (fun alias => Py.startswith alias (c :: cs))
    (Plugin.MuteControlChatter.unmute_aliases self') = None →
  Plugin.MuteControlChatter.execute self get_config bot_id host clock (Some m) w
    = (self',
       fst (Plugin.MuteControlChatter.mute_status_step self'
              (Plugin.MuteControlChatter.t_check clock) w),
       Returned
         (snd (Plugin.MuteControlChatter.mute_status_step self'
                 (Plugin.MuteControlChatter.t_check clock) w))).
Proof.
  intros Hc Hseg self' Hmute Hunmute.
  unfold Plugin.MuteControlChatter.execute. rewrite Hc. fold self'.
  unfold Plugin.MuteControlChatter.mute_alias_step,
    Plugin.MuteControlChatter.unmute_alias_step.
  rewrite Hmute, Hunmute.
  unfold Plugin.MuteControlChatter.at_unmute_step. rewrite Hseg.
  destruct (negb (Plugin.MuteControlChatter.at_unmute_enabled_val self'));
    by destruct (Plugin.MuteControlChatter.mute_status_step _ _ _).
Qed.


End MuteWindow.


(** ** Repeated mutes *)

Section Remute.

Import Host.




End Remute.


(** ** The duration parser *)

Section Parser.

Import Py.

(** A greedy repetition fails when its continuation fails on every tail of
    the input: giving code points back cannot help. *)
Lemma greedy_None {R} (cls : codepoint → bool) (k : pystr → pystr → option R)
    (s : pystr) :
  (∀ taken rest, rest `suffix_of` s → k taken rest = None) →
  ∀ least taken, greedy cls least taken s k = None.
Proof.
  induction s as [|c s' IH]; intros Hk least taken; simpl.
  - destruct least; [by apply Hk|done].
  - assert (Hstop : match least with O => k taken (c :: s') | S _ => None end = None)
      by (destruct least; [by apply Hk|done]).
    destruct (cls c); [|exact Hstop].
    rewrite IH; [exact Hstop|].
    intros t r Hr. apply Hk. by apply suffix_cons_r.
Qed.

Lemma match_here_None (units : list pystr) (s : pystr) :
  (∀ rest, rest `suffix_of` s →
     List.existsb (fun u => startswith u rest) units = false) →
  match_here units s = None.
Proof.
  intros H. unfold match_here.
  apply greedy_None. intros group1 r1 Hr1.
  apply greedy_None. intros spaces r2 Hr2.
  rewrite H; [done|]. by etrans.
Qed.

Lemma search_None (units : list pystr) (s : pystr) :
  (∀ rest, rest `suffix_of` s →
     List.existsb (fun u => startswith u rest) units = false) →
  search units s = None.
Proof.
  induction s as [|c s' IH]; intros H; cbn [search].
  - by rewrite match_here_None.
  - rewrite match_here_None by done.
    apply IH. intros r Hr. apply H. by apply suffix_cons_r.
Qed.

Lemma contains_false_suffix (u s rest : pystr) :
  contains u s = false → rest `suffix_of` s → startswith u rest = false.
Proof.
  induction s as [|c s' IH]; simpl; intros Hc Hr.
  - apply suffix_nil_inv in Hr as ->.
    by apply orb_false_iff in Hc as [? _].
  - apply orb_false_iff in Hc as [Hhere Hlater].
    destruct rest as [|x rest'].
    + apply IH; [done|apply suffix_nil].
    + apply suffix_cons_inv in Hr as [[= -> ->]|Hr]; [done|by apply IH].
Qed.

Lemma search_no_unit (units : list pystr) (s : pystr) :
  List.existsb (fun u => contains u s) units = false →
  search units s = None.
Proof.
  intros H. apply search_None. intros rest Hr.
  induction units as [|u us IH]; simpl in *; [done|].
  apply orb_false_iff in H as [Hu Hus].
  rewrite (contains_false_suffix u s rest Hu Hr). by apply IH.
Qed.

(** C3. The duration parser maps "10min" to 10, "30分钟" to 30, "1小时" to
    60, "2h" to 120 and "2天" to 2880 minutes, and fails on "banana".  The
    patterns are tried in the order minute, hour, day and the first one
    that matches fixes the result; the parser fails exactly when none
    matches, which is the case of every input in which no unit occurs, and
    a failure is not the duration zero. *)
Theorem parse_duration_units :
  Linglingbizui.MuteMaiCommand._parse_duration (of_ascii "10min") = Some 10
  ∧ Linglingbizui.MuteMaiCommand._parse_duration
      (of_ascii "30" ++ [0x5206; 0x949f]%N) = Some 30
  ∧ Linglingbizui.MuteMaiCommand._parse_duration
      (of_ascii "1" ++ [0x5c0f; 0x65f6]%N) = Some 60
  ∧ Linglingbizui.MuteMaiCommand._parse_duration (of_ascii "2h") = Some 120
  ∧ Linglingbizui.MuteMaiCommand._parse_duration
      (of_ascii "2" ++ [0x5929]%N) = Some 2880
  ∧ Linglingbizui.MuteMaiCommand._parse_duration (of_ascii "banana") = None
  ∧ (∀ s group1,
       search Linglingbizui.MuteMaiCommand.minute_units (lower s) = Some group1 →
       Linglingbizui.MuteMaiCommand._parse_duration s = Some (int group1))
  ∧ (∀ s group1,
       search Linglingbizui.MuteMaiCommand.minute_units (lower s) = None →
       search Linglingbizui.MuteMaiCommand.hour_units (lower s) = Some group1 →
       Linglingbizui.MuteMaiCommand._parse_duration s = Some (int group1 * 60))
  ∧ (∀ s group1,
       search Linglingbizui.MuteMaiCommand.minute_units (lower s) = None →
       search Linglingbizui.MuteMaiCommand.hour_units (lower s) = None →
       search Linglingbizui.MuteMaiCommand.day_units (lower s) = Some group1 →
       Linglingbizui.MuteMaiCommand._parse_duration s
         = Some (int group1 * 24 * 60))
  ∧ (∀ s,
       Linglingbizui.MuteMaiCommand._parse_duration s = None ↔
       search Linglingbizui.MuteMaiCommand.minute_units (lower s) = None
       ∧ search Linglingbizui.MuteMaiCommand.hour_units (lower s) = None
       ∧ search Linglingbizui.MuteMaiCommand.day_units (lower s) = None)
  ∧ (∀ s,
       Units.names_a_unit (lower s) = false →
       Linglingbizui.MuteMaiCommand._parse_duration s = None)
  ∧ Linglingbizui.MuteMaiCommand._parse_duration (of_ascii "1h30m") = Some 30
  ∧ Linglingbizui.MuteMaiCommand._parse_duration (of_ascii "0min") ≠ None.
Proof.
  do 6 (split; [vm_compute; reflexivity|]).
  split; [|split; [|split; [|split; [|split; [|split]]]]].
  - intros s g Hm. unfold Linglingbizui.MuteMaiCommand._parse_duration.
    by rewrite Hm.
  - intros s g Hm Hh. unfold Linglingbizui.MuteMaiCommand._parse_duration.
    by rewrite Hm, Hh.
  - intros s g Hm Hh Hd. unfold Linglingbizui.MuteMaiCommand._parse_duration.
    by rewrite Hm, Hh, Hd.
  - intros s. unfold Linglingbizui.MuteMaiCommand._parse_duration.
    destruct (search Linglingbizui.MuteMaiCommand.minute_units _);
      [split; [discriminate|by intros [? _]]|].
    destruct (search Linglingbizui.MuteMaiCommand.hour_units _);
      [split; [discriminate|by intros (_ & ? & _)]|].
    destruct (search Linglingbizui.MuteMaiCommand.day_units _);
      [split; [discriminate|by intros (_ & _ & ?)]|done].
  - intros s H. unfold Units.names_a_unit in H.
    rewrite !existsb_app in H.
    apply orb_false_iff in H as [Hm H]. apply orb_false_iff in H as [Hh Hd].
    unfold Linglingbizui.MuteMaiCommand._parse_duration.
    by rewrite !search_no_unit.
  - vm_compute. reflexivity.
  - vm_compute. discriminate.
Qed.

End Parser.

(** "banana" names no unit and is refused; "1h30m" holds both an hour and a
    minute unit, and the minute pattern decides. *)
Lemma parse_duration_units_witness :
  Linglingbizui.MuteMaiCommand._parse_duration (Py.of_ascii "banana") = None
  ∧ Linglingbizui.MuteMaiCommand._parse_duration (Py.of_ascii "1h30m")
    = Some (Py.int (Py.of_ascii "30")).
Proof.
  destruct parse_duration_units
    as (_ & _ & _ & _ & _ & _ & Hminute & _ & _ & _ & Hnone & _).
  split.
  - apply (Hnone (Py.of_ascii "banana")). vm_compute. reflexivity.
  - apply (Hminute (Py.of_ascii "1h30m") (Py.of_ascii "30")).
    vm_compute. reflexivity.
Defined.

(** ** Unmuting *)

Section Unmute.

Import Host.

(** In the handler-based plugin, unmuting a stream that has no record
    changes nothing, sends nothing, and returns [success = True]. *)
Lemma handler_unmute_without_record_reports_success :
  get_muted Samples.w0 !! "chat1"%string = None
  ∧ Linglingbizui.UnmuteMaiCommand.execute Samples.cfg_on NoReplyer
      (Samples.ctx None) Samples.w0
    = (Samples.w0,
       {| Linglingbizui.success := true;
          Linglingbizui.message := MsgWasNotMuted "chat1" |})
  ∧ Linglingbizui.success
      (snd (Linglingbizui.UnmuteMaiCommand.execute Samples.cfg_on NoReplyer
              (Samples.ctx None) Samples.w0)) ≠ false.
Proof. vm_compute. repeat split; discriminate. Qed.

(** C4, as the code has it.  With both toggles on, unmuting [S] deletes the
    record of [S] if there is one, and then a mute-status check on [S]
    reports it unmuted; with no record the map is left as it was and the
    returned message says that the stream was not muted.  The success flag
    tells whether a record existed in the chatter-based plugin (command and
    alias logic, which also send a notice when there was none); the command
    of the handler-based plugin returns [True] in both cases and sends
    nothing when there was no record. *)
Theorem unmute_removes_record_if_present :
  (∀ cfg host ctx w S,
     Linglingbizui.chat_stream ctx = Some S →
     plugin_enabled cfg = true →
     features_mute_enabled cfg = true →
     (get_muted w !! S = None →
      Linglingbizui.UnmuteMaiCommand.execute cfg host ctx w
        = (w, {| Linglingbizui.success := true;
                 Linglingbizui.message := MsgWasNotMuted S |}))
     ∧ (is_Some (get_muted w !! S) →
        ∃ w',
          Linglingbizui.UnmuteMaiCommand.execute cfg host ctx w
            = (w', {| Linglingbizui.success := true;
                      Linglingbizui.message := MsgUnmuted S |})
          ∧ get_muted w' = delete S (get_muted w)
          ∧ ∀ now m,
              Linglingbizui.stream_id m = S →
              Linglingbizui.MuteHandler.handle cfg now (Some m) w'
                = (w', {| Linglingbizui.intercepted := false |})))
  ∧ (∀ cfg host w S,
       plugin_enabled cfg = true →
       features_mute_enabled cfg = true →
       (get_muted w !! S = None →
        Plugin.UnmuteMaiCommand.execute cfg host (Some S) w
          = (text_to_stream TxtNotMuted S w, (false, MsgWasNotMuted S, false))
        ∧ get_muted (text_to_stream TxtNotMuted S w) = get_muted w)
       ∧ (is_Some (get_muted w !! S) →
          ∃ w',
            Plugin.UnmuteMaiCommand.execute cfg host (Some S) w
              = (w', (true, MsgUnmuted S, true))
            ∧ get_muted w' = delete S (get_muted w)
            ∧ ∀ now self,
                Plugin.MuteControlChatter.stream_id self = S →
                Plugin.MuteControlChatter.mute_status_step self now w'
                  = (w', Plugin.RetNoBlocking)))
  ∧ (∀ self host w S,
       Plugin.MuteControlChatter.plugin_enabled_val self = true →
       Plugin.MuteControlChatter.mute_enabled_val self = true →
       (get_muted w !! S = None →
        Plugin.MuteControlChatter._execute_unmute_logic_direct_from_chatter
          self host S w
          = (text_to_stream TxtNotMuted S w, (false, MsgWasNotMuted S))
        ∧ get_muted (text_to_stream TxtNotMuted S w) = get_muted w)
       ∧ (is_Some (get_muted w !! S) →
          ∃ w',
            Plugin.MuteControlChatter._execute_unmute_logic_direct_from_chatter
              self host S w
              = (w', (true, MsgUnmuted S))
            ∧ get_muted w' = delete S (get_muted w)
            ∧ ∀ now self',
                Plugin.MuteControlChatter.stream_id self' = S →
                Plugin.MuteControlChatter.mute_status_step self' now w'
                  = (w', Plugin.RetNoBlocking))).
Proof.
  split; [|split].
  - intros cfg host ctx w S Hs Hp Hm.
    unfold Linglingbizui.UnmuteMaiCommand.execute. rewrite Hs, Hp, Hm. cbn [negb].
    split.
    + by intros ->.
    + intros [e ->]. eexists. split; [reflexivity|].
      split; [by autorewrite with world|].
      intros now m <-. apply handler_check_no_record.
      intros m' [= <-]. autorewrite with world. apply lookup_delete_eq.
  - intros cfg host w S Hp Hm.
    unfold Plugin.UnmuteMaiCommand.execute. rewrite Hp, Hm. cbn [negb].
    split.
    + by intros ->.
    + intros [e ->]. eexists. split; [reflexivity|].
      split; [by autorewrite with world|].
      intros now self <-. unfold Plugin.MuteControlChatter.mute_status_step.
      autorewrite with world. by rewrite lookup_delete_eq.
  - intros self host w S Hp Hm.
    unfold Plugin.MuteControlChatter._execute_unmute_logic_direct_from_chatter.
    rewrite Hp, Hm. cbn [negb].
    split.
    + by intros ->.
    + intros [e ->]. eexists. split; [reflexivity|].
      split; [by autorewrite with world|].
      intros now self' <-. unfold Plugin.MuteControlChatter.mute_status_step.
      autorewrite with world. by rewrite lookup_delete_eq.
Qed.

End Unmute.

(** "chat1" is muted until 12:10 and unmuted by the command of the
    handler-based plugin: the record is gone and a check at 12:05 lets the
    message through. *)
Lemma unmute_removes_record_if_present_witness :
  ∃ w',
    Linglingbizui.UnmuteMaiCommand.execute Samples.cfg_on Host.NoReplyer
        (Samples.ctx None) Samples.w_muted
      = (w', {| Linglingbizui.success := true;
                Linglingbizui.message := Host.MsgUnmuted "chat1" |})
    ∧ Host.get_muted w' = delete "chat1"%string (Host.get_muted Samples.w_muted)
    ∧ ∀ now m,
        Linglingbizui.stream_id m = "chat1"%string →
        Linglingbizui.MuteHandler.handle Samples.cfg_on now (Some m) w'
          = (w', {| Linglingbizui.intercepted := false |}).
Proof.
  destruct unmute_removes_record_if_present as (Hhandler & _).
  destruct (Hhandler Samples.cfg_on Host.NoReplyer (Samples.ctx None)
              Samples.w_muted "chat1"%string) as [_ Hpresent].
  - reflexivity.
  - reflexivity.
  - reflexivity.
  - apply Hpresent. vm_compute. eexists. reflexivity.
Defined.

(** ** Unmuting on an @-mention *)

Section AtUnmute.

Import Host.

(** Handler-based plugin: with the three toggles on, a message that
    mentions the bot in a muted stream deletes the record at once. *)
Lemma handler_at_unmute_removes cfg now bot_id host m w e ids :
  plugin_enabled cfg = true →
  features_mute_enabled cfg = true →
  features_at_unmute_enabled cfg = true →
  get_muted w !! Linglingbizui.stream_id m = Some e →
  now < e →
  Linglingbizui.mentioned_user_ids m = Some ids →
  bot_id ∈ ids →
  get_muted
    (fst (Linglingbizui.AtUnmuteHandler.handle cfg now (Some bot_id) host
            (Some m) w))
    = delete (Linglingbizui.stream_id m) (get_muted w).
Proof.
  intros Hp Hm Ha He Hlt Hids Hin.
  unfold Linglingbizui.AtUnmuteHandler.handle.
  rewrite Hp, Hm, Ha, He, Hids. cbn [negb].
  apply Z.ltb_lt in Hlt. rewrite Hlt.
  rewrite bool_decide_eq_true_2 by done.
  simpl. by autorewrite with world.
Qed.

(** Handler-based plugin: with [features.at_unmute_enabled] off the handler
    does nothing at all. *)
Lemma handler_at_unmute_toggle_off cfg now bot_id host msg w :
  features_at_unmute_enabled cfg = false →
  Linglingbizui.AtUnmuteHandler.handle cfg now bot_id host msg w
    = (w, {| Linglingbizui.intercepted := false |}).
Proof.
  intros Ha. unfold Linglingbizui.AtUnmuteHandler.handle.
  rewrite Ha. by repeat case_match.
Qed.

(** Chatter-based plugin: an instance made by [__init__] still has
    [at_unmute_enabled_val = True] after any number of configuration
    loads, whatever the configuration says. *)
Lemma chatter_at_unmute_flag_stays_on S get_config w :
  Plugin.MuteControlChatter.at_unmute_enabled_val
    (Plugin.MuteControlChatter.load_config
       (Plugin.MuteControlChatter.__init__ S) get_config w) = true.
Proof. by rewrite load_config_at_unmute. Qed.

(** Chatter-based plugin: the @-mention step of an instance whose flag is
    on deletes the record of a muted stream when the bot is mentioned. *)
Lemma chatter_at_unmute_removes self now bot_id host m w e seg :
  Plugin.MuteControlChatter.at_unmute_enabled_val self = true →
  Plugin.message_segment m = Some seg →
  bot_id ∈ Plugin.MuteControlChatter.extract_at_ids seg →
  get_muted w !! Plugin.MuteControlChatter.stream_id self = Some e →
  now < e →
  Plugin.MuteControlChatter.at_unmute_step self now (Some bot_id) host m w
    = (trigger_thinking host (Plugin.MuteControlChatter.stream_id self)
         (text_to_stream TxtAtUnmute (Plugin.MuteControlChatter.stream_id self)
            (set_muted
               (delete (Plugin.MuteControlChatter.stream_id self) (get_muted w))
               w)),
       None).
Proof.
  intros Ha Hseg Hin He Hlt.
  unfold Plugin.MuteControlChatter.at_unmute_step.
  rewrite Ha, Hseg, He. cbn [negb].
  destruct (Plugin.MuteControlChatter.extract_at_ids seg) as [|i ids] eqn:Hids.
  { by apply elem_of_nil in Hin. }
  rewrite bool_decide_eq_true_2 by done.
  apply Z.ltb_lt in Hlt. by rewrite Hlt.
Qed.

(** C5, where the code departs from it.  The chatter for "chat1" runs
    under a configuration with [features.at_unmute_enabled = false]; the
    stream is muted until 12:10 and at 12:05 a message mentions the bot.
    The record is deleted and the at-unmute text is sent all the same. *)
Theorem chatter_at_unmute_ignores_toggle :
  features_at_unmute_enabled Samples.cfg_at_off = false
  ∧ get_muted Samples.w_muted !! "chat1"%string
    = Some (Samples.noon + Samples.minutes 10)
  ∧ ∃ self' w',
      Plugin.MuteControlChatter.execute
          (Plugin.MuteControlChatter.__init__ "chat1")
          (Some Samples.cfg_at_off) (Some "10001"%string) NoReplyer
          (Samples.clock_at (Samples.noon + Samples.minutes 5))
          (Some Samples.at_message) Samples.w_muted
        = (self', w', Returned Plugin.RetNoBlocking)
      ∧ get_muted w' !! "chat1"%string = None
      ∧ outbox w' = [("chat1"%string, TxtAtUnmute)].
Proof.
  split; [reflexivity|]. split; [vm_compute; reflexivity|].
  eexists _, _. split; [vm_compute; reflexivity|].
  split; vm_compute; reflexivity.
Qed.

(** The same input in the handler-based plugin: the record stays. *)
Lemma handler_at_unmute_respects_toggle :
  Linglingbizui.AtUnmuteHandler.handle Samples.cfg_at_off
      (Samples.noon + Samples.minutes 5) (Some "10001"%string) NoReplyer
      (Some (Samples.msg (Py.of_ascii "hello") ["10001"%string]))
      Samples.w_muted
    = (Samples.w_muted, {| Linglingbizui.intercepted := false |}).
Proof. by apply handler_at_unmute_toggle_off. Qed.

End AtUnmute.

(** ** Plugin load *)

Section PluginLoad.

Import Host.

(** C6. After [on_plugin_loaded] the muted-streams map is empty, whatever
    was stored before, so the mute-status check reports every stream
    unmuted.  Both plugin versions. *)
Theorem plugin_load_clears_registry :
  (∀ w, get_muted (Linglingbizui.MuteAndUnmutePlugin.on_plugin_loaded w) = ∅)
  ∧ (∀ w cfg now msg,
       Linglingbizui.MuteHandler.handle cfg now msg
           (Linglingbizui.MuteAndUnmutePlugin.on_plugin_loaded w)
         = (Linglingbizui.MuteAndUnmutePlugin.on_plugin_loaded w,
            {| Linglingbizui.intercepted := false |}))
  ∧ (∀ config w,
       get_muted (Plugin.MuteAndUnmutePlugin.on_plugin_loaded config w) = ∅)
  ∧ (∀ config w self now,
       Plugin.MuteControlChatter.mute_status_step self now
           (Plugin.MuteAndUnmutePlugin.on_plugin_loaded config w)
         = (Plugin.MuteAndUnmutePlugin.on_plugin_loaded config w,
            Plugin.RetNoBlocking)).
Proof.
  assert (Hl : ∀ w,
    get_muted (Linglingbizui.MuteAndUnmutePlugin.on_plugin_loaded w) = ∅).
  { intros w. unfold Linglingbizui.MuteAndUnmutePlugin.on_plugin_loaded.
    by case_decide. }
  assert (Hp : ∀ config w,
    get_muted (Plugin.MuteAndUnmutePlugin.on_plugin_loaded config w) = ∅).
  { intros config w. unfold Plugin.MuteAndUnmutePlugin.on_plugin_loaded.
    by case_decide. }
  split; [exact Hl|]. split; [|split; [exact Hp|]].
  - intros w cfg now msg. apply handler_check_no_record.
    intros m _. by rewrite Hl.
  - intros config w self now.
    unfold Plugin.MuteControlChatter.mute_status_step. by rewrite Hp.
Qed.

End PluginLoad.

(** ** Refused mute requests *)

Section Refusals.

Import Host.

(** With a toggle off the alias handler of the handler-based plugin does
    not look at the message: nothing is sent and nothing changes. *)
Lemma alias_handler_disabled cfg now host msg w :
  plugin_enabled cfg = false ∨ features_mute_enabled cfg = false →
  Linglingbizui.AliasHandler.handle cfg now host msg w
    = (w, Returned {| Linglingbizui.intercepted := false |}).
Proof.
  intros Hoff. unfold Linglingbizui.AliasHandler.handle.
  destruct msg as [m|]; [|done].
  destruct (plugin_enabled cfg); [|done].
  destruct (features_mute_enabled cfg); [|done].
  by destruct Hoff.
Qed.



End Refusals.


(** ** Unmuting and the reply trigger *)

Section ReplyTrigger.

Import Host.

(** C8. A successful unmute does not depend on the reply trigger that
    follows it: whatever the host does when asked for a reply (no chat
    stream, no replyer, a reply generated or not, an exception, which is
    caught), the command returns success and the record of the stream is
    deleted.  Both commands and the alias logic of the chatter. *)
Theorem unmute_independent_of_reply_trigger :
  (∀ cfg host ctx w S,
     Linglingbizui.chat_stream ctx = Some S →
     plugin_enabled cfg = true →
     features_mute_enabled cfg = true →
     is_Some (get_muted w !! S) →
     snd (Linglingbizui.UnmuteMaiCommand.execute cfg host ctx w)
       = {| Linglingbizui.success := true;
            Linglingbizui.message := MsgUnmuted S |}
     ∧ get_muted (fst (Linglingbizui.UnmuteMaiCommand.execute cfg host ctx w))
       = delete S (get_muted w)
     ∧ outbox (fst (Linglingbizui.UnmuteMaiCommand.execute cfg host ctx w))
       = outbox w ++ [(S, TxtUnmuteStart)])
  ∧ (∀ cfg host w S,
       plugin_enabled cfg = true →
       features_mute_enabled cfg = true →
       is_Some (get_muted w !! S) →
       snd (Plugin.UnmuteMaiCommand.execute cfg host (Some S) w)
         = (true, MsgUnmuted S, true)
       ∧ get_muted (fst (Plugin.UnmuteMaiCommand.execute cfg host (Some S) w))
         = delete S (get_muted w)
       ∧ outbox (fst (Plugin.UnmuteMaiCommand.execute cfg host (Some S) w))
         = outbox w ++ [(S, TxtUnmuteStart)])
  ∧ (∀ self host w S,
       Plugin.MuteControlChatter.plugin_enabled_val self = true →
       Plugin.MuteControlChatter.mute_enabled_val self = true →
       is_Some (get_muted w !! S) →
       snd (Plugin.MuteControlChatter._execute_unmute_logic_direct_from_chatter
              self host S w)
         = (true, MsgUnmuted S)
       ∧ get_muted
           (fst (Plugin.MuteControlChatter._execute_unmute_logic_direct_from_chatter
                   self host S w))
         = delete S (get_muted w)
       ∧ outbox
           (fst (Plugin.MuteControlChatter._execute_unmute_logic_direct_from_chatter
                   self host S w))
         = outbox w ++ [(S, TxtUnmuteStart)]).
Proof.
  split; [|split].
  - intros cfg host ctx w S Hs Hp Hm [e He].
    unfold Linglingbizui.UnmuteMaiCommand.execute.
    rewrite Hs, Hp, Hm, He. cbn [negb fst snd].
    by rewrite get_muted_trigger_thinking, outbox_trigger_thinking.
  - intros cfg host w S Hp Hm [e He].
    unfold Plugin.UnmuteMaiCommand.execute.
    rewrite Hp, Hm, He. cbn [negb fst snd].
    by rewrite get_muted_trigger_thinking, outbox_trigger_thinking.
  - intros self host w S Hp Hm [e He].
    unfold Plugin.MuteControlChatter._execute_unmute_logic_direct_from_chatter.
    rewrite Hp, Hm, He. cbn [negb fst snd].
    by rewrite get_muted_trigger_thinking, outbox_trigger_thinking.
Qed.

End ReplyTrigger.

(** "chat1" is muted and the reply generation raises: the unmute still
    succeeds and the map is empty afterwards. *)
Lemma unmute_independent_of_reply_trigger_witness :
  snd (Linglingbizui.UnmuteMaiCommand.execute Samples.cfg_on Host.ReplyRaises
         (Samples.ctx None) Samples.w_muted)
    = {| Linglingbizui.success := true;
         Linglingbizui.message := Host.MsgUnmuted "chat1" |}
  ∧ Host.get_muted
      (fst (Linglingbizui.UnmuteMaiCommand.execute Samples.cfg_on
              Host.ReplyRaises (Samples.ctx None) Samples.w_muted))
    = delete "chat1"%string (Host.get_muted Samples.w_muted)
  ∧ Host.outbox
      (fst (Linglingbizui.UnmuteMaiCommand.execute Samples.cfg_on
              Host.ReplyRaises (Samples.ctx None) Samples.w_muted))
    = Host.outbox Samples.w_muted ++ [("chat1"%string, Host.TxtUnmuteStart)].
Proof.
  destruct unmute_independent_of_reply_trigger as (Hhandler & _).
  apply (Hhandler Samples.cfg_on Host.ReplyRaises (Samples.ctx None)
           Samples.w_muted "chat1"%string).
  - reflexivity.
  - reflexivity.
  - reflexivity.
  - vm_compute. eexists. reflexivity.
Defined.

(** ** Other streams are left alone *)

Section Frame.

Import Host.

(** C9. For two distinct streams [S] and [S'], a mute, an unmute, an
    @-mention unmute or a mute-status check (with its lazy-expiry cleanup)
    performed for [S] leaves the entry of [S'] in the muted-streams map as
    it was, present or absent.  This covers every handler and command of
    the handler-based plugin, the commands of the chatter-based plugin and
    a whole call of its chatter. *)
Theorem operations_leave_other_streams (S S' : string) :
  S ≠ S' →
  (∀ cfg now ctx w,
     Linglingbizui.chat_stream ctx = Some S →
     get_muted (fst (Linglingbizui.MuteMaiCommand.execute cfg now ctx w)) !! S'
       = get_muted w !! S')
  ∧ (∀ cfg host ctx w,
       Linglingbizui.chat_stream ctx = Some S →
       get_muted (fst (Linglingbizui.UnmuteMaiCommand.execute cfg host ctx w)) !! S'
         = get_muted w !! S')
  ∧ (∀ cfg now host m w,
       Linglingbizui.msg_chat_stream m = Some S →
       get_muted (fst (Linglingbizui.AliasHandler.handle cfg now host (Some m) w)) !! S'
         = get_muted w !! S')
  ∧ (∀ cfg now bot_id host m w,
       Linglingbizui.stream_id m = S →
       get_muted
         (fst (Linglingbizui.AtUnmuteHandler.handle cfg now bot_id host (Some m) w))
         !! S' = get_muted w !! S')
  ∧ (∀ cfg now m w,
       Linglingbizui.stream_id m = S →
       get_muted (fst (Linglingbizui.MuteHandler.handle cfg now (Some m) w)) !! S'
         = get_muted w !! S')
  ∧ (∀ cfg now w,
       get_muted (fst (Plugin.MuteMaiCommand.execute cfg now (Some S) w)) !! S'
         = get_muted w !! S')
  ∧ (∀ cfg host w,
       get_muted (fst (Plugin.UnmuteMaiCommand.execute cfg host (Some S) w)) !! S'
         = get_muted w !! S')
  ∧ (∀ self get_config bot_id host clock last_message w,
       Plugin.MuteControlChatter.stream_id self = S →
       get_muted
         (snd (fst (Plugin.MuteControlChatter.execute self get_config bot_id
                      host clock last_message w))) !! S'
         = get_muted w !! S').
Proof.
  intros Hne. repeat split.
  - intros cfg now ctx w Hs. apply handler_mute_frame. congruence.
  - intros cfg host ctx w Hs. apply handler_unmute_frame. congruence.
  - intros cfg now host m w Hs. apply handler_alias_frame. congruence.
  - intros cfg now bot_id host m w Hs. apply handler_at_unmute_frame. congruence.
  - intros cfg now m w Hs. apply handler_check_frame. congruence.
  - intros cfg now w. apply chatter_mute_frame. congruence.
  - intros cfg host w. apply chatter_unmute_frame. congruence.
  - intros self get_config bot_id host clock last_message w Hs.
    apply chatter_execute_frame. congruence.
Qed.

End Frame.

(** A world with records for "chat1" and "chat2", both lasting until
    12:10. *)
Lemma operations_leave_other_streams_witness :
  let w :=
    Host.set_muted (<["chat2"%string := Samples.noon + Samples.minutes 10]>
                      (Host.get_muted Samples.w_muted)) Samples.w_muted in
  Host.get_muted
    (fst (Linglingbizui.MuteHandler.handle Samples.cfg_on
            (Samples.noon + Samples.minutes 20)
            (Some (Samples.msg (Py.of_ascii "hi") [])) w)) !! "chat2"%string
    = Some (Samples.noon + Samples.minutes 10)
  ∧ Host.get_muted
      (fst (Linglingbizui.MuteHandler.handle Samples.cfg_on
              (Samples.noon + Samples.minutes 20)
              (Some (Samples.msg (Py.of_ascii "hi") [])) w)) !! "chat1"%string
    = None.
Proof.
  intros w. split; [|vm_compute; reflexivity].
  assert (Hne : "chat1"%string ≠ "chat2"%string) by discriminate.
  destruct (operations_leave_other_streams "chat1" "chat2" Hne)
    as (_ & _ & _ & _ & Hcheck & _).
  rewrite (Hcheck Samples.cfg_on (Samples.noon + Samples.minutes 20)
             (Samples.msg (Py.of_ascii "hi") []) w eq_refl).
  vm_compute. reflexivity.
Defined.

(** ** Zero durations *)

Section ZeroDuration.

Import Host.

(** C10. The mute does not ask for a positive duration.  "0min" parses to
    0, which is not a parse failure; a mute request whose duration is 0
    succeeds and writes a record whose expiry is the time of the request,
    so every later mute-status check reports the stream unmuted (and
    deletes the record). *)
Theorem zero_duration_mute_expires_at_once :
  Linglingbizui.MuteMaiCommand._parse_duration (Py.of_ascii "0min") = Some 0
  ∧ ∀ cfg now ctx w S,
      Linglingbizui.chat_stream ctx = Some S →
      plugin_enabled cfg = true →
      features_mute_enabled cfg = true →
      Linglingbizui.MuteMaiCommand.requested_minutes cfg ctx = Some 0 →
      0 <= now < DATETIME_END →
      ∃ w',
        Linglingbizui.MuteMaiCommand.execute cfg now ctx w
          = (w', Returned {| Linglingbizui.success := true;
                             Linglingbizui.message := MsgMuted S 0 now |})
        ∧ get_muted w' !! S = Some now
        ∧ ∀ T' m,
            Linglingbizui.stream_id m = S →
            now <= T' →
            Linglingbizui.MuteHandler.handle cfg T' (Some m) w'
              = (set_muted (delete S (get_muted w')) w',
                 {| Linglingbizui.intercepted := false |}).
Proof.
  split; [vm_compute; reflexivity|].
  intros cfg now ctx w S Hs Hp Hm Hzero Hnow.
  assert (Hsum : now_plus_minutes now 0 = Some now).
  { rewrite (now_plus_minutes_in_range now 0).
    - f_equal. lia.
    - vm_compute. discriminate.
    - lia. }
  unfold Linglingbizui.MuteMaiCommand.execute.
  rewrite Hs, Hp, Hm, Hzero, Hsum. cbn [negb].
  eexists. split; [reflexivity|].
  split; [autorewrite with world; apply lookup_insert_eq|].
  intros T' m <- Hle.
  eapply handler_check_expired; [done..| |exact Hle].
  autorewrite with world. apply lookup_insert_eq.
Qed.

End ZeroDuration.

(** "0min" at 12:00 in "chat1": the record expires at 12:00 and a message
    at that very instant is not intercepted. *)
Lemma zero_duration_mute_expires_at_once_witness :
  ∃ w',
    Linglingbizui.MuteMaiCommand.execute Samples.cfg_on Samples.noon
        (Samples.ctx (Some (Py.of_ascii "0min"))) Samples.w0
      = (w', Host.Returned {| Linglingbizui.success := true;
                              Linglingbizui.message :=
                                Host.MsgMuted "chat1" 0 Samples.noon |})
    ∧ Host.get_muted w' !! "chat1"%string = Some Samples.noon
    ∧ ∀ T' m,
        Linglingbizui.stream_id m = "chat1"%string →
        Samples.noon <= T' →
        Linglingbizui.MuteHandler.handle Samples.cfg_on T' (Some m) w'
          = (Host.set_muted (delete "chat1"%string (Host.get_muted w')) w',
             {| Linglingbizui.intercepted := false |}).
Proof.
  destruct zero_duration_mute_expires_at_once as [_ Hzero].
  apply (Hzero Samples.cfg_on Samples.noon
           (Samples.ctx (Some (Py.of_ascii "0min"))) Samples.w0 "chat1"%string).
  - reflexivity.
  - reflexivity.
  - reflexivity.
  - vm_compute. reflexivity.
  - unfold Samples.noon, Host.DATETIME_END, Host.US_PER_DAY, Host.US_PER_MINUTE.
    lia.
Defined.

(** ** More on the duration parser *)

Section ParserNumbers.

Import Py.

Lemma int_from_nonneg (digits : pystr) (acc : Z) :
  0 <= acc →
  0 <= List.fold_left
         (fun acc c => 10 * acc + Z.of_N (default 0%N (decimal c))) digits acc.
Proof.
  revert acc. induction digits as [|c ds IH]; intros acc Hacc; simpl; [done|].
  apply IH. lia.
Qed.

Lemma int_nonneg (digits : pystr) : 0 <= int digits.
Proof. by apply int_from_nonneg. Qed.

(** A parsed duration is never negative: the patterns have no sign. *)
Theorem parse_duration_nonnegative (s : pystr) (minutes : Z) :
  Linglingbizui.MuteMaiCommand._parse_duration s = Some minutes →
  0 <= minutes.
Proof.
  unfold Linglingbizui.MuteMaiCommand._parse_duration.
  destruct (search Linglingbizui.MuteMaiCommand.minute_units _) as [g|].
  { intros [= <-]. apply int_nonneg. }
  destruct (search Linglingbizui.MuteMaiCommand.hour_units _) as [g|].
  { intros [= <-]. pose proof (int_nonneg g). lia. }
  destruct (search Linglingbizui.MuteMaiCommand.day_units _) as [g|]; [|done].
  intros [= <-]. pose proof (int_nonneg g). lia.
Qed.













End ParserNumbers.

Section ParserUnits.

Import Py.






End ParserUnits.


Section ParserCase.

Import Py.






End ParserCase.

(** ** White space around a string *)

Section Strip.

Import Py.

Lemma lstrip_spaces (s : pystr) :
  Forall (fun c => isspace c = true) s → lstrip s = [].
Proof. induction 1 as [|c s Hc _ IH]; simpl; [done|]. by rewrite Hc. Qed.

Lemma lstrip_nil (s : pystr) :
  lstrip s = [] → Forall (fun c => isspace c = true) s.
Proof.
  induction s as [|c s IH]; simpl; [by constructor|].
  destruct (isspace c) eqn:Hc; [|done].
  intros H. constructor; [done|by apply IH].
Qed.


Lemma lstrip_head (s t : pystr) (c : codepoint) :
  lstrip s = c :: t → isspace c = false.
Proof.
  induction s as [|d s IH]; simpl; [done|].
  destruct (isspace d) eqn:Hd; [done|]. by intros [= <- _].
Qed.

Lemma lstrip_snoc (s : pystr) (c : codepoint) :
  isspace c = false → lstrip (s ++ [c]) = lstrip s ++ [c].
Proof.
  intros Hc. induction s as [|d s IH]; simpl; [by rewrite Hc|].
  by destruct (isspace d).
Qed.

Lemma rstrip_cons (c : codepoint) (s : pystr) :
  isspace c = false → rstrip (c :: s) = c :: rstrip s.
Proof.
  intros Hc. unfold rstrip. simpl.
  by rewrite lstrip_snoc, rev_app_distr.
Qed.





Lemma strip_nil_iff (s : pystr) :
  strip s = [] ↔ Forall (fun c => isspace c = true) s.
Proof.
  split.
  - unfold strip. destruct (lstrip s) as [|c t] eqn:Hs.
    + intros _. by apply lstrip_nil.
    + pose proof (lstrip_head _ _ _ Hs) as Hc.
      by rewrite rstrip_cons.
  - intros H. unfold strip. by rewrite lstrip_spaces.
Qed.

End Strip.

(** ** The alias handler *)

Section AliasMute.

Import Host.




End AliasMute.


(** ** The handler chain of the handler-based plugin *)

Section HandlerChain.

Import Host.

(** The @-mention handler either leaves the world exactly as it was, or
    all of this holds: the three toggles are on, the bot's id is known and
    mentioned, the stream of the message has a record that has not
    expired, and the handler deleted that record, sent the at-unmute text
    and asked for a reply.  In particular it leaves an expired record in
    place for the mute-status handler. *)
Theorem at_unmute_only_unmutes cfg now bot_id host msg w :
  fst (Linglingbizui.AtUnmuteHandler.handle cfg now bot_id host msg w) = w
  ∨ ∃ m e b ids,
      msg = Some m
      ∧ plugin_enabled cfg = true
      ∧ features_mute_enabled cfg = true
      ∧ features_at_unmute_enabled cfg = true
      ∧ bot_id = Some b
      ∧ get_muted w !! Linglingbizui.stream_id m = Some e
      ∧ now < e
      ∧ Linglingbizui.mentioned_user_ids m = Some ids
      ∧ b ∈ ids
      ∧ fst (Linglingbizui.AtUnmuteHandler.handle cfg now bot_id host msg w)
        = trigger_thinking host (Linglingbizui.stream_id m)
            (text_to_stream TxtAtUnmute (Linglingbizui.stream_id m)
               (set_muted
                  (delete (Linglingbizui.stream_id m) (get_muted w)) w)).
Proof.
  unfold Linglingbizui.AtUnmuteHandler.handle.
  destruct msg as [m|]; [|by left].
  destruct (plugin_enabled cfg) eqn:Hp; [|by left].
  destruct (features_mute_enabled cfg) eqn:Hm; [|by left].
  destruct (features_at_unmute_enabled cfg) eqn:Ha; [|by left].
  cbn [negb].
  destruct (get_muted w !! Linglingbizui.stream_id m) as [e|] eqn:He; [|by left].
  destruct (now <? e) eqn:Hlt; [|by left].
  destruct bot_id as [b|]; [|by left].
  destruct (Linglingbizui.mentioned_user_ids m) as [ids|] eqn:Hids; [|by left].
  destruct (bool_decide (b ∈ ids)) eqn:Hin; [|by left].
  right. exists m, e, b, ids.
  apply Z.ltb_lt in Hlt. apply bool_decide_eq_true in Hin.
  by repeat split.
Qed.

(** The @-mention handler runs before the mute-status handler.  In a
    muted stream a message that mentions the bot is then let through by
    the mute-status handler, at whatever time it runs, and the record is
    gone; a message that does not mention the bot leaves the world as it
    was and is intercepted as long as the record has not expired. *)
Theorem mention_wakes_before_check cfg t1 t2 b host m w e ids :
  plugin_enabled cfg = true →
  features_mute_enabled cfg = true →
  features_at_unmute_enabled cfg = true →
  get_muted w !! Linglingbizui.stream_id m = Some e →
  t1 < e →
  Linglingbizui.mentioned_user_ids m = Some ids →
  (b ∈ ids →
   get_muted
     (fst (Linglingbizui.AtUnmuteHandler.handle cfg t1 (Some b) host (Some m) w))
     !! Linglingbizui.stream_id m = None
   ∧ Linglingbizui.MuteHandler.handle cfg t2 (Some m)
       (fst (Linglingbizui.AtUnmuteHandler.handle cfg t1 (Some b) host (Some m) w))
     = (fst (Linglingbizui.AtUnmuteHandler.handle cfg t1 (Some b) host (Some m) w),
        {| Linglingbizui.intercepted := false |}))
  ∧ (b ∉ ids →
     t2 < e →
     Linglingbizui.MuteHandler.handle cfg t2 (Some m)
       (fst (Linglingbizui.AtUnmuteHandler.handle cfg t1 (Some b) host (Some m) w))
     = (w, {| Linglingbizui.intercepted := true |})).
Proof.
  intros Hp Hm Ha He Hlt Hids. split.
  - intros Hin.
    assert (Hgone :
      get_muted
        (fst (Linglingbizui.AtUnmuteHandler.handle cfg t1 (Some b) host (Some m) w))
        !! Linglingbizui.stream_id m = None).
    { erewrite handler_at_unmute_removes by done. apply lookup_delete_eq. }
    split; [done|].
    apply handler_check_no_record. by intros m' [= <-].
  - intros Hout Hlt2.
    unfold Linglingbizui.AtUnmuteHandler.handle.
    rewrite Hp, Hm, Ha, He, Hids. cbn [negb].
    apply Z.ltb_lt in Hlt. rewrite Hlt.
    rewrite bool_decide_eq_false_2 by done. cbn [fst].
    by eapply handler_check_muted.
Qed.

(** Once the mute-status handler has let a message of a stream through,
    it lets every message of that stream through, at any later or earlier
    time, and changes nothing any more (until the stream is muted again). *)
Theorem check_passes_once_then_always cfg t m w t' m' :
  Linglingbizui.intercepted
    (snd (Linglingbizui.MuteHandler.handle cfg t (Some m) w)) = false →
  Linglingbizui.stream_id m' = Linglingbizui.stream_id m →
  Linglingbizui.MuteHandler.handle cfg t' (Some m')
      (fst (Linglingbizui.MuteHandler.handle cfg t (Some m) w))
    = (fst (Linglingbizui.MuteHandler.handle cfg t (Some m) w),
       {| Linglingbizui.intercepted := false |}).
Proof.
  intros Hpass Hsame. revert Hpass.
  unfold Linglingbizui.MuteHandler.handle at 1 3 4.
  destruct (plugin_enabled cfg) eqn:Hp; cbn [negb].
  2: { intros _. unfold Linglingbizui.MuteHandler.handle. by rewrite Hp. }
  destruct (features_mute_enabled cfg) eqn:Hm; cbn [negb].
  2: { intros _. unfold Linglingbizui.MuteHandler.handle. by rewrite Hp, Hm. }
  destruct (get_muted w !! Linglingbizui.stream_id m) as [e|] eqn:He.
  - destruct (t <? e); [done|]. intros _. cbn [fst].
    apply handler_check_no_record. intros m'' [= <-].
    rewrite Hsame. autorewrite with world. apply lookup_delete_eq.
  - intros _. cbn [fst].
    apply handler_check_no_record. intros m'' [= <-]. by rewrite Hsame.
Qed.

(** The mute-status checks of both versions are silent: they send no text,
    ask for no reply, keep the cached configuration, and never add a
    record to the map. *)
Theorem status_checks_are_silent :
  (∀ cfg now msg w,
     outbox (fst (Linglingbizui.MuteHandler.handle cfg now msg w)) = outbox w
     ∧ thinking (fst (Linglingbizui.MuteHandler.handle cfg now msg w))
       = thinking w
     ∧ chatter_config
         (storage (fst (Linglingbizui.MuteHandler.handle cfg now msg w)))
       = chatter_config (storage w)
     ∧ get_muted (fst (Linglingbizui.MuteHandler.handle cfg now msg w))
       ⊆ get_muted w)
  ∧ (∀ self now w,
       outbox (fst (Plugin.MuteControlChatter.mute_status_step self now w))
         = outbox w
       ∧ thinking (fst (Plugin.MuteControlChatter.mute_status_step self now w))
         = thinking w
       ∧ chatter_config
           (storage (fst (Plugin.MuteControlChatter.mute_status_step self now w)))
         = chatter_config (storage w)
       ∧ get_muted (fst (Plugin.MuteControlChatter.mute_status_step self now w))
         ⊆ get_muted w).
Proof.
  split.
  - intros cfg now msg w. unfold Linglingbizui.MuteHandler.handle.
    repeat case_match; cbn [fst]; repeat split; try done;
      autorewrite with world; apply delete_subseteq.
  - intros self now w. unfold Plugin.MuteControlChatter.mute_status_step.
    repeat case_match; cbn [fst]; repeat split; try done;
      autorewrite with world; apply delete_subseteq.
Qed.

End HandlerChain.

(** "chat1" is muted until 12:10; at 12:05 one message mentions the bot and
    another does not. *)
Lemma mention_wakes_before_check_witness :
  Linglingbizui.MuteHandler.handle Samples.cfg_on
      (Samples.noon + Samples.minutes 5)
      (Some (Samples.msg (Py.of_ascii "hello") ["10001"%string]))
      (fst (Linglingbizui.AtUnmuteHandler.handle Samples.cfg_on
              (Samples.noon + Samples.minutes 5) (Some "10001"%string)
              Host.NoReplyer
              (Some (Samples.msg (Py.of_ascii "hello") ["10001"%string]))
              Samples.w_muted))
    = (fst (Linglingbizui.AtUnmuteHandler.handle Samples.cfg_on
              (Samples.noon + Samples.minutes 5) (Some "10001"%string)
              Host.NoReplyer
              (Some (Samples.msg (Py.of_ascii "hello") ["10001"%string]))
              Samples.w_muted),
       {| Linglingbizui.intercepted := false |})
  ∧ Linglingbizui.MuteHandler.handle Samples.cfg_on
      (Samples.noon + Samples.minutes 5)
      (Some (Samples.msg (Py.of_ascii "hello") ["20002"%string]))
      (fst (Linglingbizui.AtUnmuteHandler.handle Samples.cfg_on
              (Samples.noon + Samples.minutes 5) (Some "10001"%string)
              Host.NoReplyer
              (Some (Samples.msg (Py.of_ascii "hello") ["20002"%string]))
              Samples.w_muted))
    = (Samples.w_muted, {| Linglingbizui.intercepted := true |}).
Proof.
  assert (Hlt : Samples.noon + Samples.minutes 5
                < Samples.noon + Samples.minutes 10).
  { unfold Samples.minutes, Host.US_PER_MINUTE. lia. }
  split.
  - apply (mention_wakes_before_check Samples.cfg_on
             (Samples.noon + Samples.minutes 5)
             (Samples.noon + Samples.minutes 5) "10001"%string Host.NoReplyer
             (Samples.msg (Py.of_ascii "hello") ["10001"%string])
             Samples.w_muted (Samples.noon + Samples.minutes 10)
             ["10001"%string]); try reflexivity; try exact Hlt.
    by repeat constructor.
  - apply (mention_wakes_before_check Samples.cfg_on
             (Samples.noon + Samples.minutes 5)
             (Samples.noon + Samples.minutes 5) "10001"%string Host.NoReplyer
             (Samples.msg (Py.of_ascii "hello") ["20002"%string])
             Samples.w_muted (Samples.noon + Samples.minutes 10)
             ["20002"%string]); try reflexivity; try exact Hlt.
    intros Hin. apply list_elem_of_In in Hin. simpl in Hin.
    destruct Hin as [[=]|[]].
Defined.

(** "chat1" was muted until 12:10; a check at 12:20 lets the message
    through, and so does a check at 12:05 that runs after it. *)
Lemma check_passes_once_then_always_witness :
  Linglingbizui.MuteHandler.handle Samples.cfg_on
      (Samples.noon + Samples.minutes 5)
      (Some (Samples.msg (Py.of_ascii "again") []))
      (fst (Linglingbizui.MuteHandler.handle Samples.cfg_on
              (Samples.noon + Samples.minutes 20)
              (Some (Samples.msg (Py.of_ascii "hi") [])) Samples.w_muted))
    = (fst (Linglingbizui.MuteHandler.handle Samples.cfg_on
              (Samples.noon + Samples.minutes 20)
              (Some (Samples.msg (Py.of_ascii "hi") [])) Samples.w_muted),
       {| Linglingbizui.intercepted := false |}).
Proof.
  apply (check_passes_once_then_always Samples.cfg_on
           (Samples.noon + Samples.minutes 20)
           (Samples.msg (Py.of_ascii "hi") []) Samples.w_muted
           (Samples.noon + Samples.minutes 5)
           (Samples.msg (Py.of_ascii "again") [])).
  - vm_compute. reflexivity.
  - reflexivity.
Defined.

(** ** Durations the calendar cannot hold, refused unmutes, round trips *)

Section MuteEdges.

Import Host.

Lemma now_plus_minutes_beyond (now D : Z) :
  0 <= now → DATETIME_END <= D * US_PER_MINUTE →
  now_plus_minutes now D = None.
Proof.
  intros Hnow Hbig. unfold now_plus_minutes, timedelta_minutes, datetime_add.
  destruct (Z.abs _ <=? MAX_DELTA_DAYS); [|done].
  destruct (0 <=? now + D * US_PER_MINUTE) eqn:Hlo; [|done].
  destruct (now + D * US_PER_MINUTE <? DATETIME_END) eqn:Hhi; [|done].
  apply Z.ltb_lt in Hhi. lia.
Qed.

(** A mute whose duration alone reaches past the last date of the calendar
    (year 9999) raises [OverflowError] at every clock reading, before
    anything is stored or sent: the world is untouched.  The alias handler
    lets the exception through. *)
Theorem mute_beyond_calendar_raises cfg now w S D :
  plugin_enabled cfg = true →
  features_mute_enabled cfg = true →
  0 <= now →
  DATETIME_END <= D * US_PER_MINUTE →
  (∀ ctx,
     Linglingbizui.chat_stream ctx = Some S →
     Linglingbizui.MuteMaiCommand.requested_minutes cfg ctx = Some D →
     Linglingbizui.MuteMaiCommand.execute cfg now ctx w
       = (w, Raised OverflowError))
  ∧ (∀ host m alias,
       Linglingbizui.AliasHandler.first_alias (aliases_mute cfg)
         (Py.strip (Linglingbizui.content m)) = Some alias →
       Linglingbizui.msg_chat_stream m = Some S →
       Linglingbizui.MuteMaiCommand.requested_minutes cfg
         (Linglingbizui.AliasHandler.context_with_args m
            (Py.strip (Linglingbizui.content m)) alias) = Some D →
       Linglingbizui.AliasHandler.handle cfg now host (Some m) w
         = (w, Raised OverflowError))
  ∧ (defaults_default_mute_minutes cfg = D →
     Plugin.MuteMaiCommand.execute cfg now (Some S) w
       = (w, Raised OverflowError)).
Proof.
  intros Hp Hm Hnow Hbig.
  pose proof (now_plus_minutes_beyond now D Hnow Hbig) as Hnone.
  split; [|split].
  - intros ctx Hs Hreq. unfold Linglingbizui.MuteMaiCommand.execute.
    by rewrite Hs, Hp, Hm, Hreq, Hnone.
  - intros host m alias Halias Hs Hreq.
    unfold Linglingbizui.AliasHandler.handle.
    rewrite Hp, Hm. cbn [negb]. rewrite Halias.
    unfold Linglingbizui.MuteMaiCommand.execute.
    rewrite Hreq, Hp, Hm, Hnone. cbn [negb].
    unfold Linglingbizui.AliasHandler.context_with_args.
    cbn [Linglingbizui.chat_stream]. by rewrite Hs.
  - intros Hd. unfold Plugin.MuteMaiCommand.execute.
    by rewrite Hp, Hm, Hd, Hnone.
Qed.

(** An unmute asked for while [plugin.enabled] or [features.mute_enabled]
    is off is refused: one refusal text is sent, the command returns
    failure, and the record of the stream, if there is one, stays.  Both
    commands and the alias logic of the chatter. *)
Theorem refused_unmute_keeps_record :
  (∀ cfg host ctx w S,
     Linglingbizui.chat_stream ctx = Some S →
     plugin_enabled cfg = false ∨ features_mute_enabled cfg = false →
     ∃ text message,
       Linglingbizui.UnmuteMaiCommand.execute cfg host ctx w
         = (text_to_stream text S w,
            {| Linglingbizui.success := false;
               Linglingbizui.message := message |})
       ∧ text ∈ [TxtPluginDisabled; TxtMuteDisabled]
       ∧ storage (text_to_stream text S w) = storage w)
  ∧ (∀ cfg host w S,
       plugin_enabled cfg = false ∨ features_mute_enabled cfg = false →
       ∃ text message,
         Plugin.UnmuteMaiCommand.execute cfg host (Some S) w
           = (text_to_stream text S w, (false, message, false))
         ∧ text ∈ [TxtPluginDisabled; TxtMuteDisabled]
         ∧ storage (text_to_stream text S w) = storage w)
  ∧ (∀ self host w S,
       Plugin.MuteControlChatter.plugin_enabled_val self = false
       ∨ Plugin.MuteControlChatter.mute_enabled_val self = false →
       ∃ text message,
         Plugin.MuteControlChatter._execute_unmute_logic_direct_from_chatter
           self host S w
           = (text_to_stream text S w, (false, message))
         ∧ text ∈ [TxtPluginDisabled; TxtMuteDisabled]
         ∧ storage (text_to_stream text S w) = storage w).
Proof.
  split; [|split].
  - intros cfg host ctx w S Hs Hoff.
    unfold Linglingbizui.UnmuteMaiCommand.execute. rewrite Hs.
    destruct (plugin_enabled cfg); cbn [negb].
    2: { eexists _, _. split; [reflexivity|]. split; [|done]. by repeat constructor. }
    destruct (features_mute_enabled cfg); cbn [negb]; [by destruct Hoff|].
    eexists _, _. split; [reflexivity|]. split; [|done]. by repeat constructor.
  - intros cfg host w S Hoff.
    unfold Plugin.UnmuteMaiCommand.execute.
    destruct (plugin_enabled cfg); cbn [negb].
    2: { eexists _, _. split; [reflexivity|]. split; [|done]. by repeat constructor. }
    destruct (features_mute_enabled cfg); cbn [negb]; [by destruct Hoff|].
    eexists _, _. split; [reflexivity|]. split; [|done]. by repeat constructor.
  - intros self host w S Hoff.
    unfold Plugin.MuteControlChatter._execute_unmute_logic_direct_from_chatter.
    destruct (Plugin.MuteControlChatter.plugin_enabled_val self); cbn [negb].
    2: { eexists _, _. split; [reflexivity|]. split; [|done]. by repeat constructor. }
    destruct (Plugin.MuteControlChatter.mute_enabled_val self); cbn [negb];
      [by destruct Hoff|].
    eexists _, _. split; [reflexivity|]. split; [|done]. by repeat constructor.
Qed.

(** A successful mute of [S] followed by an unmute of [S] under the same
    configuration leaves the map as it was before the mute, less the
    record of [S]: exactly as it was if [S] had no record.  The unmute
    reports success.  Both plugin versions. *)
Theorem mute_then_unmute_restores :
  (∀ cfg now host ctx w w1 S D u,
     Linglingbizui.MuteMaiCommand.execute cfg now ctx w
       = (w1, Returned {| Linglingbizui.success := true;
                          Linglingbizui.message := MsgMuted S D u |}) →
     snd (Linglingbizui.UnmuteMaiCommand.execute cfg host ctx w1)
       = {| Linglingbizui.success := true;
            Linglingbizui.message := MsgUnmuted S |}
     ∧ get_muted (fst (Linglingbizui.UnmuteMaiCommand.execute cfg host ctx w1))
       = delete S (get_muted w)
     ∧ (get_muted w !! S = None →
        get_muted (fst (Linglingbizui.UnmuteMaiCommand.execute cfg host ctx w1))
          = get_muted w))
  ∧ (∀ cfg now host cs w w1 S D u think,
       Plugin.MuteMaiCommand.execute cfg now cs w
         = (w1, Returned (true, MsgMuted S D u, think)) →
       snd (Plugin.UnmuteMaiCommand.execute cfg host cs w1)
         = (true, MsgUnmuted S, true)
       ∧ get_muted (fst (Plugin.UnmuteMaiCommand.execute cfg host cs w1))
         = delete S (get_muted w)
       ∧ (get_muted w !! S = None →
          get_muted (fst (Plugin.UnmuteMaiCommand.execute cfg host cs w1))
            = get_muted w)).
Proof.
  split.
  - intros cfg now host ctx w w1 S D u Hmute.
    apply handler_mute_success in Hmute as (Hs & Hp & Hm & _ & _ & ->).
    unfold Linglingbizui.UnmuteMaiCommand.execute.
    rewrite Hs, Hp, Hm. cbn [negb]. autorewrite with world.
    rewrite lookup_insert_eq. cbn [fst snd]. autorewrite with world.
    rewrite delete_insert_eq.
    repeat split. intros Hnone. by apply delete_id.
  - intros cfg now host cs w w1 S D u think Hmute.
    apply chatter_mute_success in Hmute as (-> & Hp & Hm & _ & _ & ->).
    unfold Plugin.UnmuteMaiCommand.execute.
    rewrite Hp, Hm. cbn [negb]. autorewrite with world.
    rewrite lookup_insert_eq. cbn [fst snd]. autorewrite with world.
    rewrite delete_insert_eq.
    repeat split. intros Hnone. by apply delete_id.
Qed.

End MuteEdges.

(** Ten thousand years, asked for at 12:00. *)
Lemma mute_beyond_calendar_raises_witness :
  Linglingbizui.MuteMaiCommand.execute Samples.cfg_on Samples.noon
      (Samples.ctx (Some (Py.of_ascii "5259600000min"))) Samples.w0
    = (Samples.w0, Host.Raised Host.OverflowError).
Proof.
  destruct (mute_beyond_calendar_raises Samples.cfg_on Samples.noon Samples.w0
              "chat1"%string 5259600000) as (Hcommand & _).
  - reflexivity.
  - reflexivity.
  - vm_compute. discriminate.
  - vm_compute. discriminate.
  - apply Hcommand; [reflexivity|]. vm_compute. reflexivity.
Defined.

(** The plugin is switched off while "chat1" is muted: the unmute is
    refused and the record stays. *)
Lemma refused_unmute_keeps_record_witness :
  ∃ text message,
    Linglingbizui.UnmuteMaiCommand.execute Samples.cfg_off Host.NoReplyer
        (Samples.ctx None) Samples.w_muted
      = (Host.text_to_stream text "chat1" Samples.w_muted,
         {| Linglingbizui.success := false; Linglingbizui.message := message |})
    ∧ text ∈ [Host.TxtPluginDisabled; Host.TxtMuteDisabled]
    ∧ Host.storage (Host.text_to_stream text "chat1" Samples.w_muted)
      = Host.storage Samples.w_muted.
Proof.
  destruct refused_unmute_keeps_record as (Hhandler & _).
  apply (Hhandler Samples.cfg_off Host.NoReplyer (Samples.ctx None)
           Samples.w_muted "chat1"%string).
  - reflexivity.
  - left. reflexivity.
Defined.

(** "chat1" is muted for ten minutes in a fresh world and unmuted again:
    the map is empty as before. *)
Lemma mute_then_unmute_restores_witness :
  Host.get_muted
    (fst (Linglingbizui.UnmuteMaiCommand.execute Samples.cfg_on Host.NoReplyer
            (Samples.ctx None)
            (fst (Linglingbizui.MuteMaiCommand.execute Samples.cfg_on
                    Samples.noon (Samples.ctx None) Samples.w0))))
    = Host.get_muted Samples.w0.
Proof.
  destruct mute_then_unmute_restores as (Hhandler & _).
  destruct (Hhandler Samples.cfg_on Samples.noon Host.NoReplyer
              (Samples.ctx None) Samples.w0
              (fst (Linglingbizui.MuteMaiCommand.execute Samples.cfg_on
                      Samples.noon (Samples.ctx None) Samples.w0))
              "chat1"%string 10 (Samples.noon + Samples.minutes 10))
    as (_ & _ & Hsame).
  - vm_compute. reflexivity.
  - apply Hsame. reflexivity.
Defined.

(** ** Early returns of the chatter *)

Section ChatterEarlyReturns.

Import Host.

Lemma concat_untexted (segments : list (string * Py.pystr)) :
  Forall (fun seg => seg.1 = "text"%string → seg.2 = []) segments →
  List.concat
    (List.map snd
       (List.filter (fun seg => bool_decide (seg.1 = "text"%string)) segments))
    = [].
Proof.
  induction 1 as [|[type text] segments Hseg _ IH]; [done|].
  cbn [List.filter fst]. destruct (bool_decide _) eqn:Htype; [|done].
  apply bool_decide_eq_true in Htype. cbn [List.map List.concat snd].
  simpl in Hseg, Htype. by rewrite (Hseg Htype), IH.
Qed.

(** A call of the chatter that finds no last message, or a last message
    whose five text attributes are missing or empty and whose segments
    carry no text, returns at once with success: the instance and the
    world are untouched and nothing is blocked, even when the stream is
    muted. *)
Theorem chatter_message_without_text_passes self get_config bot_id host clock w :
  Plugin.MuteControlChatter.execute self get_config bot_id host clock None w
    = (self, w, Returned Plugin.RetNoLastMessage)
  ∧ ∀ m,
      Plugin.MuteControlChatter.truthy (Plugin.processed_plain_text m) = false →
      Plugin.MuteControlChatter.truthy (Plugin.plain_text m) = false →
      Plugin.MuteControlChatter.truthy (Plugin.text m) = false →
      Plugin.MuteControlChatter.truthy (Plugin.content m) = false →
      Plugin.MuteControlChatter.truthy (Plugin.raw_content m) = false →
      Forall (fun seg => seg.1 = "text"%string → seg.2 = [])
        (Plugin.segments m) →
      Plugin.MuteControlChatter.execute self get_config bot_id host clock
          (Some m) w
        = (self, w, Returned Plugin.RetNoTextContent).
Proof.
  split; [done|].
  intros m H1 H2 H3 H4 H5 Hsegs.
  unfold Plugin.MuteControlChatter.execute,
    Plugin.MuteControlChatter.message_content_of,
    Plugin.MuteControlChatter.or_else.
  rewrite H1, H2, H3, H4, H5. by rewrite concat_untexted.
Qed.

(** A message with text that starts with no alias and carries an
    @-mention, received while the bot's id cannot be read: the call ends
    with the failure return before the mute-status check, so the world is
    untouched and the message is not blocked, whatever the mute state. *)
Theorem chatter_unknown_bot_id_skips_check self get_config host clock m w c cs seg :
  Plugin.MuteControlChatter.message_content_of m = Some (c :: cs) →
  Plugin.MuteControlChatter.at_unmute_enabled_val self = true →
  Plugin.message_segment m = Some seg →
  Plugin.MuteControlChatter.extract_at_ids seg ≠ [] →
  List.find (fun alias => Py.startswith alias (Py.strip (c :: cs)))
    (Plugin.MuteControlChatter.mute_aliases
       (Plugin.MuteControlChatter.load_config self get_config w)) = None →
  List.find (fun alias => Py.startswith alias (c :: cs))
    (Plugin.MuteControlChatter.unmute_aliases
       (Plugin.MuteControlChatter.load_config self get_config w)) = None →
  Plugin.MuteControlChatter.execute self get_config None host clock (Some m) w
    = (Plugin.MuteControlChatter.load_config self get_config w, w,
       Returned Plugin.RetBotIdFailed).
Proof.
  intros Hc Hat Hseg Hids Hmute Hunmute.
  unfold Plugin.MuteControlChatter.execute. rewrite Hc.
  unfold Plugin.MuteControlChatter.mute_alias_step,
    Plugin.MuteControlChatter.unmute_alias_step.
  rewrite Hmute, Hunmute.
  unfold Plugin.MuteControlChatter.at_unmute_step.
  rewrite load_config_at_unmute, Hat, Hseg. cbn [negb].
  by destruct (Plugin.MuteControlChatter.extract_at_ids seg).
Qed.

(** For a message with text that starts with no alias and has no message
    segment, the chatter blocks exactly while the record of its stream has
    not expired, and deletes an expired record.  No toggle is consulted:
    the result is the same under every configuration, also one with
    [plugin.enabled = false]. *)
Theorem chatter_plain_message_blocked_while_muted
    self get_config bot_id host clock m w c cs e :
  Plugin.MuteControlChatter.message_content_of m = Some (c :: cs) →
  Plugin.message_segment m = None →
  List.find (fun alias => Py.startswith alias (Py.strip (c :: cs)))
    (Plugin.MuteControlChatter.mute_aliases
       (Plugin.MuteControlChatter.load_config self get_config w)) = None →
  List.find (fun alias => Py.startswith alias (c :: cs))
    (Plugin.MuteControlChatter.unmute_aliases
       (Plugin.MuteControlChatter.load_config self get_config w)) = None →
  get_muted w !! Plugin.MuteControlChatter.stream_id self = Some e →
  (Plugin.MuteControlChatter.t_check clock < e →
   Plugin.MuteControlChatter.execute self get_config bot_id host clock (Some m) w
     = (Plugin.MuteControlChatter.load_config self get_config w, w,
        Returned Plugin.RetIntercepted))
  ∧ (e <= Plugin.MuteControlChatter.t_check clock →
     Plugin.MuteControlChatter.execute self get_config bot_id host clock (Some m) w
       = (Plugin.MuteControlChatter.load_config self get_config w,
          set_muted
            (delete (Plugin.MuteControlChatter.stream_id self) (get_muted w)) w,
          Returned Plugin.RetNoBlocking)).
Proof.
  intros Hc Hseg Hmute Hunmute He.
  pose proof (chatter_execute_plain_message self get_config bot_id host clock
                m w c cs Hc Hseg Hmute Hunmute) as Hex.
  cbv zeta in Hex. rewrite Hex.
  assert (He' :
    get_muted w !! Plugin.MuteControlChatter.stream_id
                     (Plugin.MuteControlChatter.load_config self get_config w)
      = Some e) by by rewrite load_config_stream_id.
  split; intros Ht.
  - by rewrite (chatter_check_muted _ _ _ _ He' Ht).
  - rewrite (chatter_check_expired _ _ _ _ He' Ht).
    by rewrite load_config_stream_id.
Qed.

End ChatterEarlyReturns.

(** A picture arrives in "chat1" while it is muted: the chatter returns
    "no text content" and does not block. *)
Lemma chatter_message_without_text_passes_witness :
  Plugin.MuteControlChatter.execute (Plugin.MuteControlChatter.__init__ "chat1")
      (Some Samples.cfg_on) (Some "10001"%string) Host.NoReplyer
      (Samples.clock_at (Samples.noon + Samples.minutes 5))
      (Some Samples.picture_message) Samples.w_muted
    = (Plugin.MuteControlChatter.__init__ "chat1", Samples.w_muted,
       Host.Returned Plugin.RetNoTextContent).
Proof.
  destruct (chatter_message_without_text_passes
              (Plugin.MuteControlChatter.__init__ "chat1")
              (Some Samples.cfg_on) (Some "10001"%string) Host.NoReplyer
              (Samples.clock_at (Samples.noon + Samples.minutes 5))
              Samples.w_muted) as [_ Hnotext].
  apply Hnotext; try reflexivity.
  repeat constructor. intros [=].
Defined.

(** "hello" with an @-segment arrives in muted "chat1" while the bot's id
    cannot be read. *)
Lemma chatter_unknown_bot_id_skips_check_witness :
  Plugin.MuteControlChatter.execute (Plugin.MuteControlChatter.__init__ "chat1")
      (Some Samples.cfg_on) None Host.NoReplyer
      (Samples.clock_at (Samples.noon + Samples.minutes 5))
      (Some Samples.at_message) Samples.w_muted
    = (Plugin.MuteControlChatter.load_config
         (Plugin.MuteControlChatter.__init__ "chat1") (Some Samples.cfg_on)
         Samples.w_muted,
       Samples.w_muted, Host.Returned Plugin.RetBotIdFailed).
Proof.
  eapply (chatter_unknown_bot_id_skips_check
            (Plugin.MuteControlChatter.__init__ "chat1") (Some Samples.cfg_on)
            Host.NoReplyer _ Samples.at_message Samples.w_muted).
  - vm_compute. reflexivity.
  - reflexivity.
  - reflexivity.
  - vm_compute. discriminate.
  - vm_compute. reflexivity.
  - vm_compute. reflexivity.
Defined.

(** "hello" arrives in "chat1", muted until 12:10, under a configuration
    with the plugin switched off: blocked at 12:05, let through at 12:10. *)
Lemma chatter_plain_message_blocked_while_muted_witness :
  Plugin.MuteControlChatter.execute (Plugin.MuteControlChatter.__init__ "chat1")
      (Some Samples.cfg_off) (Some "10001"%string) Host.NoReplyer
      (Samples.clock_at (Samples.noon + Samples.minutes 5))
      (Some (Samples.plain_message (Py.of_ascii "hello"))) Samples.w_muted
    = (Plugin.MuteControlChatter.load_config
         (Plugin.MuteControlChatter.__init__ "chat1") (Some Samples.cfg_off)
         Samples.w_muted,
       Samples.w_muted, Host.Returned Plugin.RetIntercepted).
Proof.
  destruct (chatter_plain_message_blocked_while_muted
              (Plugin.MuteControlChatter.__init__ "chat1")
              (Some Samples.cfg_off) (Some "10001"%string) Host.NoReplyer
              (Samples.clock_at (Samples.noon + Samples.minutes 5))
              (Samples.plain_message (Py.of_ascii "hello")) Samples.w_muted
              104%N (Py.of_ascii "ello") (Samples.noon + Samples.minutes 10))
    as [Hblocked _].
  - reflexivity.
  - reflexivity.
  - vm_compute. reflexivity.
  - vm_compute. reflexivity.
  - vm_compute. reflexivity.
  - apply Hblocked. unfold Samples.clock_at, Samples.minutes, Host.US_PER_MINUTE.
    simpl. lia.
Defined.

(** ** Aliases in the chatter *)

Section ChatterAliases.

Import Host.


(** A message whose text starts with an unmute alias (and whose stripped
    text starts with no mute alias, with no message segment), received
    while the stream has a record: the record is deleted, the confirmation
    is sent, a reply is asked for, and the same call lets the message
    through. *)
Theorem chatter_unmute_alias_unblocks
    self cfg bot_id host clock m w c cs alias e :
  Plugin.MuteControlChatter.message_content_of m = Some (c :: cs) →
  Plugin.message_segment m = None →
  plugin_enabled cfg = true →
  features_mute_enabled cfg = true →
  List.find (fun alias => Py.startswith alias (Py.strip (c :: cs)))
    (aliases_mute cfg) = None →
  List.find (fun alias => Py.startswith alias (c :: cs))
    (aliases_unmute cfg) = Some alias →
  get_muted w !! Plugin.MuteControlChatter.stream_id self = Some e →
  Plugin.MuteControlChatter.execute self (Some cfg) bot_id host clock (Some m) w
    = (Plugin.MuteControlChatter.load_config self (Some cfg) w,
       trigger_thinking host (Plugin.MuteControlChatter.stream_id self)
         (text_to_stream TxtUnmuteStart (Plugin.MuteControlChatter.stream_id self)
            (set_muted
               (delete (Plugin.MuteControlChatter.stream_id self) (get_muted w))
               w)),
       Returned Plugin.RetNoBlocking).
Proof.
  intros Hc Hseg Hp Hm Hmute Hunmute He.
  unfold Plugin.MuteControlChatter.execute. rewrite Hc.
  unfold Plugin.MuteControlChatter.mute_alias_step,
    Plugin.MuteControlChatter.unmute_alias_step,
    Plugin.MuteControlChatter._execute_unmute_logic_direct_from_chatter,
    Plugin.MuteControlChatter.at_unmute_step,
    Plugin.MuteControlChatter.mute_status_step.
  cbn [Plugin.MuteControlChatter.load_config
       Plugin.MuteControlChatter.mute_aliases
       Plugin.MuteControlChatter.unmute_aliases
       Plugin.MuteControlChatter.plugin_enabled_val
       Plugin.MuteControlChatter.mute_enabled_val
       Plugin.MuteControlChatter.default_mute_minutes_val
       Plugin.MuteControlChatter.at_unmute_enabled_val
       Plugin.MuteControlChatter.stream_id].
  rewrite Hmute, Hunmute, Hp, Hm, He, Hseg. cbn [negb fst].
  destruct (negb (Plugin.MuteControlChatter.at_unmute_enabled_val self));
    autorewrite with world; by rewrite lookup_delete_eq.
Qed.

End ChatterAliases.


(** "绫绫张嘴" arrives in "chat1" while it is muted. *)
Lemma chatter_unmute_alias_unblocks_witness :
  Plugin.MuteControlChatter.execute (Plugin.MuteControlChatter.__init__ "chat1")
      (Some Samples.cfg_on) (Some "10001"%string) Host.ReplyRaises
      (Samples.clock_at (Samples.noon + Samples.minutes 5))
      (Some (Samples.plain_message [0x7eeb; 0x7eeb; 0x5f20; 0x5634]%N))
      Samples.w_muted
    = (Plugin.MuteControlChatter.load_config
         (Plugin.MuteControlChatter.__init__ "chat1") (Some Samples.cfg_on)
         Samples.w_muted,
       Host.trigger_thinking Host.ReplyRaises "chat1"
         (Host.text_to_stream Host.TxtUnmuteStart "chat1"
            (Host.set_muted
               (delete "chat1"%string (Host.get_muted Samples.w_muted))
               Samples.w_muted)),
       Host.Returned Plugin.RetNoBlocking).
Proof.
  eapply (chatter_unmute_alias_unblocks
            (Plugin.MuteControlChatter.__init__ "chat1") Samples.cfg_on
            (Some "10001"%string) Host.ReplyRaises
            (Samples.clock_at (Samples.noon + Samples.minutes 5))
            (Samples.plain_message [0x7eeb; 0x7eeb; 0x5f20; 0x5634]%N)
            Samples.w_muted).
  - reflexivity.
  - reflexivity.
  - reflexivity.
  - reflexivity.
  - vm_compute. reflexivity.
  - vm_compute. reflexivity.
  - vm_compute. reflexivity.
Defined.

(** ** The configuration cached for the chatter *)

Section ConfigCache.

Import Host.







End ConfigCache.


(** ** Mentions in nested segments *)

Section Mentions.

Import Plugin.

Lemma after_colon_app (nick qq : string) :
  MuteControlChatter.after_colon nick = None →
  MuteControlChatter.after_colon (nick +:+ ":" +:+ qq) = Some qq.
Proof.
  induction nick as [|a nick IH]; simpl; [done|].
  destruct (Ascii.eqb a ":"); [done|]. exact IH.
Qed.

Lemma extract_seglist (l : list Seg) :
  MuteControlChatter.extract_at_ids (MkSeg "seglist" (DataList l))
    = List.concat (List.map MuteControlChatter.extract_at_ids l).
Proof.
  cbn [MuteControlChatter.extract_at_ids].
  rewrite bool_decide_eq_false_2 by done.
  rewrite bool_decide_eq_true_2 by done.
  induction l as [|seg l IH]; [done|].
  cbn [List.map List.concat]. by rewrite <- IH.
Qed.

Lemma extract_inside (seg root : Seg) (x : string) :
  Segments.inside seg root →
  x ∈ MuteControlChatter.extract_at_ids seg →
  x ∈ MuteControlChatter.extract_at_ids root.
Proof.
  induction 1 as [|sub l Hsub _ IH]; [done|].
  intros Hx. rewrite extract_seglist.
  apply list_elem_of_In, in_concat.
  exists (MuteControlChatter.extract_at_ids sub). split.
  - apply in_map. by apply list_elem_of_In.
  - apply list_elem_of_In. by apply IH.
Qed.

(** An @-segment is found wherever it sits in the nested segment lists of
    a message: its id is among the extracted ids when its data is the id
    itself (no colon), "nickname:id" with a colon-free nickname, or a
    dictionary with a ['qq'] entry. *)
Theorem nested_mentions_are_found (root : Seg) (nick qq : string) :
  (Segments.inside (MkSeg "at" (DataStr qq)) root →
   MuteControlChatter.after_colon qq = None →
   qq ∈ MuteControlChatter.extract_at_ids root)
  ∧ (Segments.inside (MkSeg "at" (DataStr (nick +:+ ":" +:+ qq))) root →
     MuteControlChatter.after_colon nick = None →
     qq ∈ MuteControlChatter.extract_at_ids root)
  ∧ (Segments.inside (MkSeg "at" (DataDict (Some qq))) root →
     qq ∈ MuteControlChatter.extract_at_ids root).
Proof.
  split; [|split].
  - intros Hin Hcolon. eapply extract_inside; [exact Hin|].
    cbn [MuteControlChatter.extract_at_ids].
    rewrite bool_decide_eq_true_2 by done. rewrite Hcolon.
    apply list_elem_of_here.
  - intros Hin Hcolon. eapply extract_inside; [exact Hin|].
    cbn [MuteControlChatter.extract_at_ids].
    rewrite bool_decide_eq_true_2 by done.
    rewrite after_colon_app by done. apply list_elem_of_here.
  - intros Hin. eapply extract_inside; [exact Hin|].
    cbn [MuteControlChatter.extract_at_ids].
    rewrite bool_decide_eq_true_2 by done. apply list_elem_of_here.
Qed.

End Mentions.

(** The message of the samples: a list holding "bot:10001" as an
    @-segment and a text segment. *)
Lemma nested_mentions_are_found_witness :
  "10001"%string
    ∈ Plugin.MuteControlChatter.extract_at_ids
        (Plugin.MkSeg "seglist"
           (Plugin.DataList
              [Plugin.MkSeg "at" (Plugin.DataStr "bot:10001");
               Plugin.MkSeg "text" (Plugin.DataStr "hello")])).
Proof.
  destruct (nested_mentions_are_found
              (Plugin.MkSeg "seglist"
                 (Plugin.DataList
                    [Plugin.MkSeg "at" (Plugin.DataStr "bot:10001");
                     Plugin.MkSeg "text" (Plugin.DataStr "hello")]))
              "bot"%string "10001"%string) as (_ & Hnick & _).
  apply Hnick; [|reflexivity].
  eapply Segments.inside_list; [|apply Segments.inside_here].
  apply list_elem_of_here.
Defined.

(** ** The argument object of the alias handler *)

Section CommandArgs.

Import Py.
Import Linglingbizui.

Lemma split_from_nil (word s : pystr) :
  split_from word s = [] ↔ word = [] ∧ Forall (fun c => isspace c = true) s.
Proof.
  revert word. induction s as [|c s IH]; intros word; simpl.
  - destruct word; split; try done; by intros [[=] _].
  - destruct (isspace c) eqn:Hc.
    + destruct word as [|a word].
      * rewrite IH. split; intros [? H]; (split; [done|]).
        -- by constructor.
        -- by apply Forall_cons in H as [_ H].
      * split; [done|]. by intros [[=] _].
    + rewrite IH. split.
      * intros [Hw _]. by destruct word.
      * intros [_ H]. apply Forall_cons in H as [H _]. congruence.
Qed.

Lemma args_list_nil (raw : pystr) :
  SimpleCommandArgs.args_list (SimpleCommandArgs.__init__ raw) = []
  ↔ Forall (fun c => isspace c = true) raw.
Proof.
  unfold SimpleCommandArgs.__init__. cbn [SimpleCommandArgs.args_list].
  destruct raw as [|c raw]; [by split; [constructor|]|].
  unfold split. rewrite split_from_nil. split; [by intros [_ ?]|by split].
Qed.

Lemma index_notin (x : pystr) (words : list pystr) :
  x ∉ words → index x words = None.
Proof.
  induction words as [|word words IH]; simpl; [done|].
  intros Hx. apply not_elem_of_cons in Hx as [Hne Hx].
  rewrite bool_decide_eq_false_2 by done. by rewrite IH.
Qed.

Lemma index_first (x : pystr) (pre post : list pystr) :
  x ∉ pre → index x (pre ++ x :: post) = Some (length pre).
Proof.
  induction pre as [|word pre IH]; simpl.
  - intros _. by rewrite bool_decide_eq_true_2.
  - intros Hx. apply not_elem_of_cons in Hx as [Hne Hx].
    rewrite bool_decide_eq_false_2 by done. by rewrite IH.
Qed.

(** For the object built from a raw text, being empty, holding no
    argument, having no first argument and counting zero arguments are one
    and the same: the text is blank.  An empty object has nothing
    remaining. *)
Theorem args_empty_iff_no_argument (raw : pystr) :
  (SimpleCommandArgs.is_empty (SimpleCommandArgs.__init__ raw) = true
   ↔ Forall (fun c => isspace c = true) raw)
  ∧ (SimpleCommandArgs.get_args (SimpleCommandArgs.__init__ raw) = []
     ↔ SimpleCommandArgs.is_empty (SimpleCommandArgs.__init__ raw) = true)
  ∧ (SimpleCommandArgs.get_first (SimpleCommandArgs.__init__ raw) = None
     ↔ SimpleCommandArgs.is_empty (SimpleCommandArgs.__init__ raw) = true)
  ∧ (SimpleCommandArgs.count (SimpleCommandArgs.__init__ raw) = O
     ↔ SimpleCommandArgs.is_empty (SimpleCommandArgs.__init__ raw) = true)
  ∧ (SimpleCommandArgs.is_empty (SimpleCommandArgs.__init__ raw) = true →
     SimpleCommandArgs.get_remaining (SimpleCommandArgs.__init__ raw) = []).
Proof.
  assert (Hempty :
    SimpleCommandArgs.is_empty (SimpleCommandArgs.__init__ raw) = true
    ↔ Forall (fun c => isspace c = true) raw).
  { unfold SimpleCommandArgs.is_empty, SimpleCommandArgs.__init__.
    cbn [SimpleCommandArgs.raw_str]. rewrite <- strip_nil_iff.
    by destruct (strip raw). }
  pose proof (args_list_nil raw) as Hnil.
  split; [exact Hempty|]. rewrite Hempty, <- Hnil.
  unfold SimpleCommandArgs.get_args, SimpleCommandArgs.get_first,
    SimpleCommandArgs.count, SimpleCommandArgs.get_remaining.
  destruct (SimpleCommandArgs.args_list (SimpleCommandArgs.__init__ raw));
    by repeat split.
Qed.

(** [get_flag_value] gives the argument that follows the first occurrence
    of the flag, and the default when the flag does not occur or when its
    first occurrence is the last argument. *)
Theorem flag_value_follows_first_flag
    (self : SimpleCommandArgs.Self) (flag : pystr) (default : option pystr) :
  (SimpleCommandArgs.has_flag self flag = false →
   SimpleCommandArgs.get_flag_value self flag default = default)
  ∧ (∀ pre value post,
       SimpleCommandArgs.get_args self = pre ++ flag :: value :: post →
       flag ∉ pre →
       SimpleCommandArgs.get_flag_value self flag default = Some value)
  ∧ (∀ pre,
       SimpleCommandArgs.get_args self = pre ++ [flag] →
       flag ∉ pre →
       SimpleCommandArgs.get_flag_value self flag default = default).
Proof.
  unfold SimpleCommandArgs.has_flag, SimpleCommandArgs.get_flag_value,
    SimpleCommandArgs.get_args.
  split; [|split].
  - intros Hno. apply bool_decide_eq_false in Hno. by rewrite index_notin.
  - intros pre value post -> Hpre. rewrite index_first by done.
    rewrite length_app. cbn [length].
    destruct (length pre + 1 <? length pre + S (S (length post)))%nat eqn:Hlt.
    + f_equal. rewrite app_nth2 by lia.
      by replace (length pre + 1 - length pre)%nat with 1%nat by lia.
    + apply Nat.ltb_ge in Hlt. lia.
  - intros pre -> Hpre. rewrite index_first by done.
    rewrite length_app. cbn [length].
    destruct (length pre + 1 <? length pre + 1)%nat eqn:Hlt; [|done].
    apply Nat.ltb_lt in Hlt. lia.
Qed.

End CommandArgs.

(** The text " -t  5 -t 9 ": the value of "-t" is "5"; the blank text is
    empty. *)
Lemma flag_value_follows_first_flag_witness :
  Linglingbizui.SimpleCommandArgs.get_flag_value
      (Linglingbizui.SimpleCommandArgs.__init__ (Py.of_ascii " -t  5 -t 9 "))
      (Py.of_ascii "-t") None
    = Some (Py.of_ascii "5").
Proof.
  destruct (flag_value_follows_first_flag
              (Linglingbizui.SimpleCommandArgs.__init__
                 (Py.of_ascii " -t  5 -t 9 "))
              (Py.of_ascii "-t") None) as (_ & Hvalue & _).
  apply (Hvalue [] (Py.of_ascii "5") [Py.of_ascii "-t"; Py.of_ascii "9"]).
  - vm_compute. reflexivity.
  - apply not_elem_of_nil.
Defined.

Lemma args_empty_iff_no_argument_witness :
  Linglingbizui.SimpleCommandArgs.get_remaining
      (Linglingbizui.SimpleCommandArgs.__init__ (Py.of_ascii "   "))
    = [].
Proof.
  destruct (args_empty_iff_no_argument (Py.of_ascii "   "))
    as (_ & _ & _ & _ & Hrest).
  apply Hrest. vm_compute. reflexivity.
Defined.

(** ** Mentions and the mute-status step of the chatter *)

Section ChatterMention.

Import Host.

(** In one call of the chatter the @-mention check runs before the
    mute-status check.  For a message with text that starts with no alias,
    in a stream whose record has not expired: if the bot is among the ids
    extracted from the message segment, the record is deleted, the
    at-unmute text is sent, a reply is asked for and the message is let
    through; if it is not, the world is untouched and the message is
    blocked. *)
Theorem chatter_mention_wakes_before_check
    self get_config b host clock m w c cs seg e :
  Plugin.MuteControlChatter.message_content_of m = Some (c :: cs) →
  Plugin.MuteControlChatter.at_unmute_enabled_val self = true →
  Plugin.message_segment m = Some seg →
  List.find (fun alias => Py.startswith alias (Py.strip (c :: cs)))
    (Plugin.MuteControlChatter.mute_aliases
       (Plugin.MuteControlChatter.load_config self get_config w)) = None →
  List.find (fun alias => Py.startswith alias (c :: cs))
    (Plugin.MuteControlChatter.unmute_aliases
       (Plugin.MuteControlChatter.load_config self get_config w)) = None →
  get_muted w !! Plugin.MuteControlChatter.stream_id self = Some e →
  (b ∈ Plugin.MuteControlChatter.extract_at_ids seg →
   Plugin.MuteControlChatter.t_at clock < e →
   Plugin.MuteControlChatter.execute self get_config (Some b) host clock
       (Some m) w
     = (Plugin.MuteControlChatter.load_config self get_config w,
        trigger_thinking host (Plugin.MuteControlChatter.stream_id self)
          (text_to_stream TxtAtUnmute (Plugin.MuteControlChatter.stream_id self)
             (set_muted
                (delete (Plugin.MuteControlChatter.stream_id self) (get_muted w))
                w)),
        Returned Plugin.RetNoBlocking))
  ∧ (b ∉ Plugin.MuteControlChatter.extract_at_ids seg →
     Plugin.MuteControlChatter.t_check clock < e →
     Plugin.MuteControlChatter.execute self get_config (Some b) host clock
         (Some m) w
       = (Plugin.MuteControlChatter.load_config self get_config w, w,
          Returned Plugin.RetIntercepted)).
Proof.
  intros Hc Hat Hseg Hmute Hunmute He.
  set (self' := Plugin.MuteControlChatter.load_config self get_config w) in *.
  assert (Hid : Plugin.MuteControlChatter.stream_id self'
                = Plugin.MuteControlChatter.stream_id self)
    by apply load_config_stream_id.
  assert (Hat' : Plugin.MuteControlChatter.at_unmute_enabled_val self' = true)
    by (subst self'; by rewrite load_config_at_unmute).
  assert (He' : get_muted w !! Plugin.MuteControlChatter.stream_id self' = Some e)
    by by rewrite Hid.
  split.
  - intros Hin Hlt.
    unfold Plugin.MuteControlChatter.execute. rewrite Hc. fold self'.
    unfold Plugin.MuteControlChatter.mute_alias_step,
      Plugin.MuteControlChatter.unmute_alias_step.
    rewrite Hmute, Hunmute.
    rewrite (chatter_at_unmute_removes self' _ b host m w e seg Hat' Hseg Hin
               He' Hlt).
    unfold Plugin.MuteControlChatter.mute_status_step.
    autorewrite with world. rewrite lookup_delete_eq. by rewrite Hid.
  - intros Hout Hlt.
    unfold Plugin.MuteControlChatter.execute. rewrite Hc. fold self'.
    unfold Plugin.MuteControlChatter.mute_alias_step,
      Plugin.MuteControlChatter.unmute_alias_step.
    rewrite Hmute, Hunmute.
    unfold Plugin.MuteControlChatter.at_unmute_step.
    rewrite Hat', Hseg. cbn [negb].
    destruct (Plugin.MuteControlChatter.extract_at_ids seg) as [|i ids].
    + by rewrite (chatter_check_muted self' _ w e He' Hlt).
    + rewrite (bool_decide_eq_false_2 _ Hout).
      by rewrite (chatter_check_muted self' _ w e He' Hlt).
Qed.

End ChatterMention.

(** "hello" with an @-segment for 10001 arrives in "chat1", muted until
    12:10, at 12:05: the bot 10001 is woken, a bot 20002 stays muted. *)
Lemma chatter_mention_wakes_before_check_witness :
  Plugin.MuteControlChatter.execute (Plugin.MuteControlChatter.__init__ "chat1")
      (Some Samples.cfg_on) (Some "20002"%string) Host.NoReplyer
      (Samples.clock_at (Samples.noon + Samples.minutes 5))
      (Some Samples.at_message) Samples.w_muted
    = (Plugin.MuteControlChatter.load_config
         (Plugin.MuteControlChatter.__init__ "chat1") (Some Samples.cfg_on)
         Samples.w_muted,
       Samples.w_muted, Host.Returned Plugin.RetIntercepted).
Proof.
  destruct (chatter_mention_wakes_before_check
              (Plugin.MuteControlChatter.__init__ "chat1")
              (Some Samples.cfg_on) "20002"%string Host.NoReplyer
              (Samples.clock_at (Samples.noon + Samples.minutes 5))
              Samples.at_message Samples.w_muted
              104%N (Py.of_ascii "ello")
              (Plugin.MkSeg "seglist"
                 (Plugin.DataList
                    [Plugin.MkSeg "at" (Plugin.DataStr "bot:10001");
                     Plugin.MkSeg "text" (Plugin.DataStr "hello")]))
              (Samples.noon + Samples.minutes 10))
    as [_ Hother].
  - vm_compute. reflexivity.
  - reflexivity.
  - reflexivity.
  - vm_compute. reflexivity.
  - vm_compute. reflexivity.
  - vm_compute. reflexivity.
  - apply Hother.
    + vm_compute. intros Hin. apply list_elem_of_In in Hin.
      destruct Hin as [[=]|[]].
    + unfold Samples.clock_at, Samples.minutes, Host.US_PER_MINUTE. simpl. lia.
Defined.

(** "2h" parses to 120, which is not negative. *)
Lemma parse_duration_nonnegative_witness :
  Linglingbizui.MuteMaiCommand._parse_duration (Py.of_ascii "2h") = Some 120
  ∧ 0 <= 120.
Proof.
  assert (Hparse : Linglingbizui.MuteMaiCommand._parse_duration
                     (Py.of_ascii "2h") = Some 120)
    by (vm_compute; reflexivity).
  split; [exact Hparse|].
  exact (parse_duration_nonnegative (Py.of_ascii "2h") 120 Hparse).
Defined.
